(** * Publication gateway of the workbench daemon

    A shallow embedding of [modules/external_io_operations.py]: the
    [ExternalIoGateway] orchestrator and its three workers ([IpfsWorker],
    [PinataWorker], [RobonomicsWorker]).

    The Python code is effectful: it mutates the gateway's [ipfs_hash]
    attribute, removes files, writes log records, talks to external services
    and starts a thread.  All of this is threaded through an explicit
    state-and-exception monad [M] over a [world].  External collaborators
    (the IPFS client, the short-link updater, the sub-process runner and the
    Pinata client) are parameters collected in [Env]. *)

From Stdlib Require Import String Ascii List ZArith Lia.
From stdpp Require Import base option strings gmap.

Local Open Scope string_scope.
Local Open Scope list_scope.

(** ** Python values, exceptions and log records *)

(** Configuration leaves are typed [tp.Any] in the source; the scalars a
    configuration file can hold are modelled. *)
Inductive pyval : Type :=
| VNone
| VBool (b : bool)
| VInt (n : Z)
| VStr (s : string).

(** Python truth value testing, as used by [if x:] and [x and y]. *)
Definition truthy (v : pyval) : bool :=
  match v with
  | VNone => false
  | VBool b => b
  | VInt n => negb (n =? 0)%Z
  | VStr s => negb (String.eqb s EmptyString)
  end.

(** Truth value of a [str] ([if keyword:], [... and qrpic]). *)
Definition str_truthy (s : string) : bool := negb (String.eqb s EmptyString).

Definition type_name (v : pyval) : string :=
  match v with
  | VNone => "NoneType"
  | VBool _ => "bool"
  | VInt _ => "int"
  | VStr _ => "str"
  end.

(** A configuration section and the whole configuration:
    [tp.Dict[str, tp.Dict[str, tp.Any]]]. *)
Abbreviation Section_ := (gmap string pyval).
Abbreviation Config := (gmap string (gmap string pyval)).

(** Exceptions.  Every constructor is a subclass of Python's [Exception], so
    every one of them is caught by [except Exception]. *)
Inductive exn : Type :=
| KeyError (key : string)
| UnboundLocalError (name : string)
| ValueError (args : list string)
| TypeError (msg : string)
| FileNotFoundError (path : string)
| Exception_ (msg : string)
| CollaboratorError (cls : string) (msg : string).

Inductive level : Type := INFO | ERROR.

(** [logging.info(msg)] and [logging.error(msg, e)]. *)
Record log_record : Type := LogRecord {
  lvl : level;
  msg : string;
  arg : option exn
}.

(** Calls that leave the process, in the order they are made. *)
Inductive call : Type :=
| CallConnect
| CallAdd (filename : string)
| CallUpdateShortUrl (keyword : string) (hash : string)
| CallPopen (cmd : string)
| CallPinFile (api secret : pyval) (filename : string).

(** ** Objects *)

(** [ExternalIoGateway]: its two attributes. *)
Record ExternalIoGateway : Type := Gateway {
  config : Config;
  ipfs_hash : option string
}.

(** [ExternalIoGateway.__init__] *)
Definition ExternalIoGateway_init (cfg : Config) : ExternalIoGateway :=
  {| config := cfg; ipfs_hash := None |}.

(** The workers.  Their [_context] attribute is a reference to the gateway,
    which lives in the [world]; they hold a label and the configuration (or
    the section of it) they were built with. *)
Record IpfsWorker : Type := MkIpfsWorker {
  ipfs_target : string;
  ipfs_config : Config
}.

Record RobonomicsWorker : Type := MkRobonomicsWorker {
  robonomics_target : string;
  robonomics_config : Section_
}.

Record PinataWorker : Type := MkPinataWorker {
  pinata_target : string;
  pinata_config : Section_
}.

(** [threading.Thread(target=worker._pin_to_pinata, args=...)]: [args] is
    kept as the sequence it will be unpacked into when the thread runs. *)
Record Thread : Type := MkThread {
  thread_self : PinataWorker;
  thread_args : list string
}.

(** ** The world *)

Record world : Type := World {
  self_ : ExternalIoGateway;          (* the gateway object, shared by reference *)
  fs : gmap string string;            (* files on disk: path to content *)
  log : list log_record;              (* records emitted through [logging] *)
  calls : list call;                  (* calls made on the caller's thread *)
  threads : list Thread               (* threads started and not joined *)
}.

(** The behaviour of the external collaborators.  They are functions of
    their arguments; they raise subclasses of [Exception] only and leave the
    local files alone.  [update_short_url] belongs to
    [modules.short_url_generator], which is outside this module; like the
    third-party clients it is taken as a parameter. *)
Record Env : Type := MkEnv {
  (* ipfshttpclient.connect() *)
  env_connect : option exn;
  (* client.add(filename): the response dictionary, or an exception *)
  env_add : string -> exn + gmap string string;
  (* modules.short_url_generator.update_short_url(keyword, hash, config) *)
  env_update_short_url : string -> string -> Config -> option exn;
  (* subprocess.Popen(cmd, shell=True, ...).stdout.readline().strip().decode("utf8") *)
  env_popen : string -> exn + string;
  (* PinataPy(api, secret).pin_file_to_ipfs(filename) *)
  env_pin : pyval -> pyval -> string -> option exn
}.

(** ** State and exception monad *)

Definition M (A : Type) : Type := world -> (exn + A) * world.

Definition ret {A : Type} (a : A) : M A := fun w => (inr a, w).

Definition raise {A : Type} (e : exn) : M A := fun w => (inl e, w).

Definition bind {A B : Type} (m : M A) (k : A -> M B) : M B :=
  fun w =>
    match m w with
    | (inr a, w') => k a w'
    | (inl e, w') => (inl e, w')
    end.

(** [try: body except Exception as e: handler e]. Effects of [body] made
    before the exception stay. *)
Definition try_except {A : Type} (body : M A) (handler : exn -> M A) : M A :=
  fun w =>
    match body w with
    | (inr a, w') => (inr a, w')
    | (inl e, w') => handler e w'
    end.

Declare Scope py_scope.
Delimit Scope py_scope with py.
Notation "x <- m ;; k" := (bind m (fun x => k))
  (at level 20, m at level 99, k at level 200, only parsing) : py_scope.
Notation "m ;; k" := (bind m (fun _ => k))
  (at level 100, k at level 200, right associativity, only parsing) : py_scope.
Local Open Scope py_scope.

Definition gets {A : Type} (f : world -> A) : M A := fun w => (inr (f w), w).
Definition modify (f : world -> world) : M unit := fun w => (inr tt, f w).

(** [d[k]] on a dictionary. *)
Definition getitem {V : Type} (d : gmap string V) (k : string) : M V :=
  match d !! k with
  | Some v => ret v
  | None => raise (KeyError k)
  end.

(** [s + v] where [s] is a [str]. *)
Definition str_add (s : string) (v : pyval) : M string :=
  match v with
  | VStr t => ret (s +:+ t)
  | _ => raise (TypeError ("can only concatenate str (not " +:+ type_name v +:+ ") to str"))
  end.

(** Reading a local variable that may not have been assigned. *)
Definition local_var {A : Type} (name : string) (v : option A) : M A :=
  match v with
  | Some a => ret a
  | None => raise (UnboundLocalError name)
  end.

Definition set_log (l : list log_record) (w : world) : world :=
  {| self_ := self_ w; fs := fs w; log := l; calls := calls w; threads := threads w |}.
Definition set_calls (c : list call) (w : world) : world :=
  {| self_ := self_ w; fs := fs w; log := log w; calls := c; threads := threads w |}.
Definition set_fs (f : gmap string string) (w : world) : world :=
  {| self_ := self_ w; fs := f; log := log w; calls := calls w; threads := threads w |}.
Definition set_threads (t : list Thread) (w : world) : world :=
  {| self_ := self_ w; fs := fs w; log := log w; calls := calls w; threads := t |}.
Definition set_ipfs_hash (h : option string) (w : world) : world :=
  {| self_ := {| config := config (self_ w); ipfs_hash := h |};
     fs := fs w; log := log w; calls := calls w; threads := threads w |}.

Definition logging_info (m : string) : M unit :=
  modify (fun w => set_log (log w ++ [LogRecord INFO m None]) w).

(** [logging.error(msg, e)]: the record is handed to the handlers.  The
    messages of this module have no placeholder for [e]; the formatting
    error this causes is handled inside the logging module and never raised
    to the caller. *)
Definition logging_error (m : string) (e : exn) : M unit :=
  modify (fun w => set_log (log w ++ [LogRecord ERROR m (Some e)]) w).

Definition record_call (c : call) : M unit :=
  modify (fun w => set_calls (calls w ++ [c]) w).

Definition lift_status (r : option exn) : M unit :=
  match r with
  | None => ret tt
  | Some e => raise e
  end.

Definition lift_result {A : Type} (r : exn + A) : M A :=
  match r with
  | inr a => ret a
  | inl e => raise e
  end.

(** [os.remove(path)]: removes the file, or raises [FileNotFoundError] when
    there is none. *)
Definition os_remove (path : string) : M unit :=
  fun w =>
    match fs w !! path with
    | Some _ => (inr tt, set_fs (delete path (fs w)) w)
    | None => (inl (FileNotFoundError path), w)
    end.

(** [os.path.exists(path)] *)
Definition os_path_exists (path : string) : M bool :=
  gets (fun w => bool_decide (is_Some (fs w !! path))).

(** [with open(path, "w") as f: f.write(content)] *)
Definition write_text (path content : string) : M unit :=
  modify (fun w => set_fs (<[path := content]> (fs w)) w).

(** Characters used by the source's string literals. *)
Definition dquote : string := String (ascii_of_nat 34) EmptyString.
Definition newline : string := String (ascii_of_nat 10) EmptyString.

(** Iterating over a [str] yields its one-character strings. *)
Fixpoint chars (s : string) : list string :=
  match s with
  | EmptyString => []
  | String c s' => String c EmptyString :: chars s'
  end.

(** [s[:-4]] and [s[-4:]] *)
Definition slice_to_minus4 (s : string) : string :=
  substring 0 (String.length s - 4) s.
Definition slice_from_minus4 (s : string) : string :=
  substring (String.length s - 4) 4 s.

(** ** The program *)

Section Program.

Variable env : Env.

(** *** ExternalIoGateway.concatenate (static method) *)
Definition concatenate (dirname filename : string) : M string :=
  logging_info "Concatenating videos" ;;
  intro_exists <- os_path_exists (dirname +:+ "/media/intro.mp4") ;;
  if negb intro_exists then raise (Exception_ "Intro file doesn't exist!")
  else
    let concat_string :=
      "file '" +:+ dirname +:+ "/media/intro.mp4'" +:+ newline
      +:+ "file '" +:+ filename +:+ "'" in
    write_text (dirname +:+ "/output/vidlist.txt") concat_string ;;
    let concat_filename :=
      slice_to_minus4 filename +:+ "_intro" +:+ slice_from_minus4 filename in
    let concat_command :=
      "ffmpeg -f concat -safe 0 -i " +:+ dirname
      +:+ "/output/vidlist.txt -c copy " +:+ concat_filename in
    record_call (CallPopen ("exec " +:+ concat_command)) ;;
    _ <- lift_result (env_popen env ("exec " +:+ concat_command)) ;;
    ret concat_filename.

(** *** IpfsWorker *)
Definition IpfsWorker_init (cfg : Config) : M IpfsWorker :=
  ret {| ipfs_target := "IPFS"; ipfs_config := cfg |}.

Definition IpfsWorker_post (self : IpfsWorker) (filename keyword : string) : M unit :=
  record_call CallConnect ;;
  lift_status (env_connect env) ;;
  record_call (CallAdd filename) ;;
  res <- lift_result (env_add env filename) ;;
  hash <- getitem res "Hash" ;;
  modify (set_ipfs_hash (Some hash)) ;;
  logging_info ("Published to IPFS, hash: " +:+ hash) ;;
  if str_truthy keyword then
    logging_info "Updating URL" ;;
    record_call (CallUpdateShortUrl keyword hash) ;;
    lift_status (env_update_short_url env keyword hash (ipfs_config self))
  else ret tt.

(** *** RobonomicsWorker *)
Definition RobonomicsWorker_init (cfg : Config) : M RobonomicsWorker :=
  transaction <- getitem cfg "transaction" ;;
  ret {| robonomics_target := "Robonomics Network"; robonomics_config := transaction |}.

Definition RobonomicsWorker_post (self : RobonomicsWorker) : M unit :=
  context_hash <- gets (fun w => ipfs_hash (self_ w)) ;;
  match context_hash with
  | None => raise (ValueError (chars "ipfs_hash is None"))
  | Some hash =>
      let program := "echo " +:+ dquote +:+ hash +:+ dquote +:+ " | " in
      path <- getitem (robonomics_config self) "path_to_robonomics_file" ;;
      program <- str_add program path ;;
      let program := program +:+ " io write datalog " in
      remote <- getitem (robonomics_config self) "remote" ;;
      program <- str_add program remote ;;
      let program := program +:+ " -s " in
      context_config <- gets (fun w => config (self_ w)) ;;
      camera <- getitem context_config "camera" ;;
      key <- getitem camera "key" ;;
      program <- str_add program key ;;
      record_call (CallPopen program) ;;
      output <- lift_result (env_popen env program) ;;
      logging_info ("Published data to chain. Transaction hash is " +:+ output)
  end.

(** *** PinataWorker *)
Definition PinataWorker_init (cfg : Config) : M PinataWorker :=
  pinata <- getitem cfg "pinata" ;;
  ret {| pinata_target := "Pinata cloud"; pinata_config := pinata |}.

(** [threading.Thread(target=self._pin_to_pinata, args=filename).start()]:
    the thread object stores [args] as given, here the [str] itself, and
    unpacks it into positional arguments when it runs.  Starting the thread
    is taken to succeed; the thread is never joined, so its body is not part
    of [post]: it is [Thread_run] below. *)
Definition PinataWorker_post (self : PinataWorker) (filename : string) : M unit :=
  logging_info "Camera is sending file to Pinata in the background" ;;
  let pinata_thread := {| thread_self := self; thread_args := chars filename |} in
  modify (fun w => set_threads (threads w ++ [pinata_thread]) w).

Definition PinataWorker_pin_to_pinata (self : PinataWorker) (filename : string) : M unit :=
  pinata_api <- getitem (pinata_config self) "pinata_api" ;;
  pinata_secret_api <- getitem (pinata_config self) "pinata_secret_api" ;;
  if truthy pinata_api && truthy pinata_secret_api then
    record_call (CallPinFile pinata_api pinata_secret_api filename) ;;
    lift_status (env_pin env pinata_api pinata_secret_api filename) ;;
    logging_info ("File " +:+ filename +:+ " published to Pinata")
  else ret tt.

(** [Thread.run] calls the target with the stored [args] unpacked into
    positional arguments.  The target is the bound method [_pin_to_pinata],
    which takes exactly one positional argument. *)
Definition Thread_run (t : Thread) : M unit :=
  match thread_args t with
  | [filename] => PinataWorker_pin_to_pinata (thread_self t) filename
  | _ => raise (TypeError "_pin_to_pinata() takes 2 positional arguments")
  end.

(** *** ExternalIoGateway.clean_after_record *)
Definition clean_after_record (filename qrpic non_concatenated_filename : string) : M unit :=
  logging_info "Removing files" ;;
  os_remove filename ;;
  os_remove qrpic ;;
  self_config <- gets (fun w => config (self_ w)) ;;
  intro <- getitem self_config "intro" ;;
  intro_enable <- getitem intro "enable" ;;
  if truthy intro_enable then os_remove non_concatenated_filename
  else ret tt.

(** [self.config[section][key]] *)
Definition self_config_get (section key : string) : M pyval :=
  self_config <- gets (fun w => config (self_ w)) ;;
  sec <- getitem self_config section ;;
  getitem sec key.

(** *** ExternalIoGateway.send, stage by stage *)

(** Lines 73-78.  The local variables [filename] and
    [non_concatenated_filename] after the stage; the latter stays unbound
    when the branch is not taken. *)
Definition send_intro (filename : string) : M (string * option string) :=
  intro_enable <- self_config_get "intro" "enable" ;;
  if truthy intro_enable then
    try_except
      (let non_concatenated_filename := filename in
       let filename := filename in
       ret (filename, Some non_concatenated_filename))
      (fun e =>
         logging_error "Failed to concatenate. Error: " e ;;
         ret (filename, None))
  else ret (filename, None).

(** Lines 80-92. *)
Definition send_publish (filename keyword : string) : M unit :=
  external_io_enable <- self_config_get "external_io" "enable" ;;
  if truthy external_io_enable then
    try_except
      (self_config <- gets (fun w => config (self_ w)) ;;
       worker <- IpfsWorker_init self_config ;;
       IpfsWorker_post worker filename keyword ;;
       pinata_enable <- self_config_get "pinata" "enable" ;;
       if truthy pinata_enable then
         worker <- PinataWorker_init self_config ;;
         PinataWorker_post worker filename
       else ret tt)
      (fun e =>
         logging_error "Error while publishing to IPFS or pinning to pinata. Error: " e)
  else ret tt.

(** Lines 94-98. *)
Definition send_clean (filename qrpic : string)
    (non_concatenated_filename : option string) : M unit :=
  delete_after_record <- self_config_get "general" "delete_after_record" ;;
  if truthy delete_after_record && str_truthy qrpic then
    try_except
      (ncf <- local_var "non_concatenated_filename" non_concatenated_filename ;;
       clean_after_record filename qrpic ncf)
      (fun e => logging_error "Error while deleting file, error: " e)
  else ret tt.

(** Lines 101-105: the [try] block of the ledger stage. *)
Definition send_datalog_try : M unit :=
  try_except
    (self_config <- gets (fun w => config (self_ w)) ;;
     worker <- RobonomicsWorker_init self_config ;;
     RobonomicsWorker_post worker)
    (fun e => logging_error "Error while sending IPFS hash to chain, error: " e).

(** Lines 100-107.  The [return] statement is inside the [if] block; when the
    condition is false the function falls off its end and returns [None]. *)
Definition send_datalog : M (option string) :=
  datalog_enable <- self_config_get "datalog" "enable" ;;
  cond <- (if truthy datalog_enable
           then self_config_get "external_io" "enable"
           else ret datalog_enable) ;;
  if truthy cond then
    send_datalog_try ;;
    gets (fun w => ipfs_hash (self_ w))
  else ret None.

Definition send (filename keyword qrpic : string) : M (option string) :=
  locals <- send_intro filename ;;
  let filename := fst locals in
  let non_concatenated_filename := snd locals in
  send_publish filename keyword ;;
  send_clean filename qrpic non_concatenated_filename ;;
  send_datalog.

End Program.

(** ** Reading the configuration *)

(** [cfg[section][key]], with the [KeyError] Python raises when the section
    or the key is missing. *)
Definition flag_get (cfg : Config) (section key : string) : exn + pyval :=
  match cfg !! section with
  | None => inl (KeyError section)
  | Some sec =>
      match sec !! key with
      | None => inl (KeyError key)
      | Some v => inr v
      end
  end.

(** The same lookup as an option. *)
Definition flag_value (cfg : Config) (section key : string) : option pyval :=
  match flag_get cfg section key with
  | inr v => Some v
  | inl _ => None
  end.

(** The four flags [send] reads outside its [try] blocks. *)
Definition flags_present (cfg : Config) : Prop :=
  is_Some (flag_value cfg "intro" "enable")
  /\ is_Some (flag_value cfg "external_io" "enable")
  /\ is_Some (flag_value cfg "general" "delete_after_record")
  /\ is_Some (flag_value cfg "datalog" "enable").

Definition flag_missing (cfg : Config) : Prop :=
  flag_value cfg "intro" "enable" = None
  \/ flag_value cfg "external_io" "enable" = None
  \/ flag_value cfg "general" "delete_after_record" = None
  \/ flag_value cfg "datalog" "enable" = None.

(** ** Observations on a run *)

Definition is_popen (c : call) : bool :=
  match c with
  | CallPopen _ => true
  | _ => false
  end.

(** The records the cleanup stage can emit. *)
Definition cleanup_record (r : log_record) : Prop :=
  r = LogRecord INFO "Removing files" None
  \/ exists e, r = LogRecord ERROR "Error while deleting file, error: " (Some e).

(** The ways the storage step of [IpfsWorker.post] fails with [e]: the node
    cannot be reached, [add] raises, or the response carries no hash. *)
Definition storage_fails (env : Env) (filename : string) (e : exn) : Prop :=
  env_connect env = Some e
  \/ (env_connect env = None /\ env_add env filename = inl e)
  \/ (env_connect env = None /\ e = KeyError "Hash"
      /\ exists res, env_add env filename = inr res /\ res !! "Hash" = None).

(** The storage client returns hash [h] for [filename]. *)
Definition storage_returns (env : Env) (filename h : string) : Prop :=
  env_connect env = None
  /\ exists res, env_add env filename = inr res /\ res !! "Hash" = Some h.

(** The command line [RobonomicsWorker.post] builds. *)
Definition datalog_program (hash path remote key : string) : string :=
  ((((("echo " +:+ dquote +:+ hash +:+ dquote +:+ " | ") +:+ path)
      +:+ " io write datalog ") +:+ remote) +:+ " -s ") +:+ key.

(** ** Frames

    What each stage of [send] leaves untouched, as a relation between the
    world before and the world after. *)

(** Publication (lines 80-92) never touches the files or the configuration,
    runs no sub-process, and can only set the content hash. *)
Definition publish_frame (w w' : world) : Prop :=
  config (self_ w') = config (self_ w)
  /\ fs w' = fs w
  /\ (exists l, log w' = log w ++ l)
  /\ (exists l, calls w' = calls w ++ l /\ Forall (fun c => is_popen c = false) l)
  /\ (ipfs_hash (self_ w') = ipfs_hash (self_ w) \/ is_Some (ipfs_hash (self_ w'))).

(** Cleanup (lines 94-98) only removes files and logs. *)
Definition clean_frame (w w' : world) : Prop :=
  self_ w' = self_ w
  /\ calls w' = calls w
  /\ threads w' = threads w
  /\ (exists l, log w' = log w ++ l /\ Forall cleanup_record l).

(** Ledger anchoring (lines 100-105) only logs and calls out. *)
Definition datalog_frame (w w' : world) : Prop :=
  self_ w' = self_ w
  /\ fs w' = fs w
  /\ threads w' = threads w
  /\ (exists l, log w' = log w ++ l)
  /\ (exists l, calls w' = calls w ++ l).

(** A computation respects a relation when the world it leaves is related to
    the world it started from, whatever its outcome. *)
Definition respects (R : world -> world -> Prop) {A : Type} (m : M A) : Prop :=
  forall w, R w (snd (m w)).

(** ** Sample inputs *)

Definition flag (b : bool) : Section_ := {[ "enable" := VBool b ]}.

(** A complete configuration with the five flags as given. *)
Definition sample_config
    (intro external_io pinata datalog delete_after_record : bool) : Config :=
  {[ "intro" := flag intro;
     "external_io" := flag external_io;
     "pinata" := <[ "pinata_api" := VStr "api-key" ]>
                   (<[ "pinata_secret_api" := VStr "api-secret" ]> (flag pinata));
     "datalog" := flag datalog;
     "general" := {[ "delete_after_record" := VBool delete_after_record ]};
     "transaction" := {[ "path_to_robonomics_file" := VStr "./robonomics";
                         "remote" := VStr "-r wss://node" ]};
     "camera" := {[ "key" := VStr "seed" ]} ]}.

(** Collaborators that all succeed; the store answers [Qm123]. *)
Definition sample_env : Env :=
  {| env_connect := None;
     env_add := fun _ => inr {[ "Hash" := "Qm123" ]};
     env_update_short_url := fun _ _ _ => None;
     env_popen := fun _ => inr "0xabc";
     env_pin := fun _ _ _ => None |}.

(** The same, with a store that raises. *)
Definition failing_env : Env :=
  {| env_connect := None;
     env_add := fun _ => inl (CollaboratorError "StorageError" "unreachable");
     env_update_short_url := fun _ _ _ => None;
     env_popen := fun _ => inr "0xabc";
     env_pin := fun _ _ _ => None |}.

(** A freshly constructed gateway in a quiet world. *)
Definition fresh_world (cfg : Config) (files : gmap string string) : world :=
  {| self_ := ExternalIoGateway_init cfg; fs := files;
     log := []; calls := []; threads := [] |}.

Definition sample_files : gmap string string :=
  {[ "vid.mp4" := "video"; "qr.png" := "qr"; "/srv/media/intro.mp4" := "intro" ]}.

Definition sample_pinata_worker : PinataWorker :=
  {| pinata_target := "Pinata cloud";
     pinata_config := {[ "pinata_api" := VStr "api-key";
                         "pinata_secret_api" := VStr "api-secret" ]} |}.

(** ** Statements taken from the specification *)

(** Cleanup as the specification words it: whenever [delete_after_record]
    is set and a QR path is supplied, neither the working file nor the QR
    file exists once [send] has returned. *)
Definition files_gone_after_send
    (env : Env) (filename keyword qrpic : string) (w : world) : Prop :=
  forall vg,
    flag_value (config (self_ w)) "general" "delete_after_record" = Some vg ->
    truthy vg = true ->
    qrpic <> EmptyString ->
    let w' := snd (send env filename keyword qrpic w) in
    fs w' !! filename = None /\ fs w' !! qrpic = None.

(** ** Names for the strings [concatenate] builds *)

(** [filename[:-4] + "_intro" + filename[-4:]] *)
Definition concat_name (filename : string) : string :=
  slice_to_minus4 filename +:+ "_intro" +:+ slice_from_minus4 filename.




(** ** The arguments of the ledger command *)

Definition as_str (v : option pyval) : option string :=
  match v with
  | Some (VStr s) => Some s
  | _ => None
  end.

(** The tool path, the remote and the signing key, when the worker's section
    and the gateway's configuration hold all three as strings. *)
Definition ledger_arguments (self : RobonomicsWorker) (cfg : Config)
    : option (string * string * string) :=
  match as_str (robonomics_config self !! "path_to_robonomics_file"),
        as_str (robonomics_config self !! "remote"),
        as_str (flag_value cfg "camera" "key") with
  | Some path, Some remote, Some key => Some (path, remote, key)
  | _, _, _ => None
  end.

(** The exceptions a bad configuration causes. *)
Definition config_error (e : exn) : Prop :=
  (exists key, e = KeyError key) \/ (exists m, e = TypeError m).

(** ** What a run of [send] depends on *)

(** The ledger arguments as [send] finds them: through the [transaction]
    section [RobonomicsWorker.__init__] picks. *)
Definition ledger_ready (cfg : Config) : option (string * string * string) :=
  match cfg !! "transaction" with
  | Some sec =>
      ledger_arguments
        {| robonomics_target := "Robonomics Network"; robonomics_config := sec |} cfg
  | None => None
  end.

(** The short-link step of [IpfsWorker.post] does not raise: there is no
    keyword, or the updater returns. *)
Definition short_link_ok (env : Env) (cfg : Config) (keyword h : string) : bool :=
  if str_truthy keyword
  then match env_update_short_url env keyword h cfg with
       | None => true
       | Some _ => false
       end
  else true.

(** The thread [send] starts for [filename] when [pinata.enable] can be read
    and is truthy; none otherwise. *)
Definition pinning_thread (cfg : Config) (filename : string) : list Thread :=
  match cfg !! "pinata" with
  | Some sec =>
      match sec !! "enable" with
      | Some v =>
          if truthy v
          then [{| thread_self := {| pinata_target := "Pinata cloud"; pinata_config := sec |};
                   thread_args := chars filename |}]
          else []
      | None => []
      end
  | None => []
  end.

Definition is_pin_call (c : call) : bool :=
  match c with
  | CallPinFile _ _ _ => true
  | _ => false
  end.

(** ** More sample inputs *)

(** A gateway that still holds the hash of an earlier publication. *)
Definition published_world (cfg : Config) (files : gmap string string) : world :=
  set_ipfs_hash (Some "QmOld") (fresh_world cfg files).

(** A recording, its version with the intro, and its QR code. *)
Definition three_files : gmap string string :=
  {[ "vid_intro.mp4" := "intro+video"; "vid.mp4" := "video"; "qr.png" := "qr" ]}.

Definition sample_robonomics_worker : RobonomicsWorker :=
  {| robonomics_target := "Robonomics Network";
     robonomics_config := {[ "path_to_robonomics_file" := VStr "./robonomics";
                             "remote" := VStr "-r wss://node" ]} |}.

Definition sample_ipfs_worker : IpfsWorker :=
  {| ipfs_target := "IPFS";
     ipfs_config := sample_config false true false false false |}.

(** Collaborators that succeed except for the short-link updater. *)
Definition short_link_failing_env : Env :=
  {| env_connect := None;
     env_add := fun _ => inr {[ "Hash" := "Qm123" ]};
     env_update_short_url := fun _ _ _ => Some (CollaboratorError "ConnectionError" "yourls");
     env_popen := fun _ => inr "0xabc";
     env_pin := fun _ _ _ => None |}.

(** ** Statements and frames for the storage-failure and cleanup results *)


(** What the stages other than cleanup log: records that are not cleanup
    records. *)
Definition no_cleanup_log (w w' : world) : Prop :=
  exists l, log w' = log w ++ l /\ Forall (fun r => ~ cleanup_record r) l.

(** * Properties *)

(** ** Basic facts *)

Ltac unfold_monad :=
  cbv beta iota delta [bind ret raise gets modify try_except getitem
    lift_status lift_result local_var logging_info logging_error record_call
    str_add] in *.

Lemma flag_value_Some cfg s k v :
  flag_value cfg s k = Some v -> flag_get cfg s k = inr v.
Proof.
  unfold flag_value. destruct (flag_get cfg s k); congruence.
Qed.

Lemma self_config_get_eq s k w :
  self_config_get s k w = (flag_get (config (self_ w)) s k, w).
Proof.
  unfold self_config_get, flag_get. unfold_monad. simpl.
  destruct (config (self_ w) !! s) as [sec|]; [destruct (sec !! k)|]; reflexivity.
Qed.

Lemma str_truthy_true s : s <> EmptyString -> str_truthy s = true.
Proof.
  intros Hs. destruct s; [congruence | reflexivity].
Qed.

(** ** Stage by stage *)

Section Stages.

Variable env : Env.

Lemma send_intro_eq filename w :
  send_intro filename w =
  match flag_get (config (self_ w)) "intro" "enable" with
  | inl e => (inl e, w)
  | inr v => (inr (filename, if truthy v then Some filename else None), w)
  end.
Proof.
  unfold send_intro, bind. rewrite self_config_get_eq.
  destruct (flag_get _ _ _) as [e|v]; [reflexivity|].
  destruct (truthy v); reflexivity.
Qed.

Lemma send_publish_raises filename keyword w e :
  flag_get (config (self_ w)) "external_io" "enable" = inl e ->
  send_publish env filename keyword w = (inl e, w).
Proof.
  intros H. unfold send_publish, bind. rewrite self_config_get_eq, H. reflexivity.
Qed.

Lemma send_publish_skipped filename keyword w v :
  flag_get (config (self_ w)) "external_io" "enable" = inr v ->
  truthy v = false ->
  send_publish env filename keyword w = (inr tt, w).
Proof.
  intros H Hv. unfold send_publish, bind. rewrite self_config_get_eq, H, Hv.
  reflexivity.
Qed.

End Stages.

(** ** Frame reasoning

    A relation between the world before and after a computation that is
    reflexive and transitive is respected by a whole computation as soon as
    each primitive step respects it. *)

Section Respects.

Context (R : world -> world -> Prop) `{!Reflexive R, !Transitive R}.

Local Abbreviation respects := (respects R).

Lemma respects_ret {A} (a : A) : respects (ret a).
Proof. intros w. simpl. reflexivity. Qed.

Lemma respects_raise {A} (e : exn) : respects (@raise A e).
Proof. intros w. simpl. reflexivity. Qed.

Lemma respects_gets {A} (f : world -> A) : respects (gets f).
Proof. intros w. simpl. reflexivity. Qed.

Lemma respects_bind {A B} (m : M A) (k : A -> M B) :
  respects m -> (forall a, respects (k a)) -> respects (bind m k).
Proof.
  intros Hm Hk w. unfold bind. specialize (Hm w).
  destruct (m w) as [[e|a] w1]; simpl in *; [assumption|].
  etransitivity; [eassumption|]. apply Hk.
Qed.

Lemma respects_try_except {A} (body : M A) (handler : exn -> M A) :
  respects body -> (forall e, respects (handler e)) ->
  respects (try_except body handler).
Proof.
  intros Hm Hk w. unfold try_except. specialize (Hm w).
  destruct (body w) as [[e|a] w1]; simpl in *; [|assumption].
  etransitivity; [eassumption|]. apply Hk.
Qed.

Lemma respects_getitem {V} (d : gmap string V) k : respects (getitem d k).
Proof. unfold getitem. destruct (d !! k); [apply respects_ret|apply respects_raise]. Qed.

Lemma respects_lift_status r : respects (lift_status r).
Proof. destruct r; [apply respects_raise|apply respects_ret]. Qed.

Lemma respects_lift_result {A} (r : exn + A) : respects (lift_result r).
Proof. destruct r; [apply respects_raise|apply respects_ret]. Qed.

Lemma respects_local_var {A} name (v : option A) : respects (local_var name v).
Proof. destruct v; [apply respects_ret|apply respects_raise]. Qed.

Lemma respects_str_add s v : respects (str_add s v).
Proof. destruct v; first [apply respects_ret|apply respects_raise]. Qed.

Lemma respects_modify f : (forall w, R w (f w)) -> respects (modify f).
Proof. intros H w. apply H. Qed.

Lemma respects_self_config_get s k : respects (self_config_get s k).
Proof. intros w. rewrite self_config_get_eq. simpl. reflexivity. Qed.

Lemma respects_os_remove path :
  (forall w, R w (set_fs (delete path (fs w)) w)) -> respects (os_remove path).
Proof.
  intros H w. unfold os_remove. destruct (fs w !! path); simpl; [apply H|reflexivity].
Qed.

End Respects.

(** Decompose a computation along its binds, handlers and branches, leaving
    the primitive state updates. *)
Ltac respects_step :=
  lazymatch goal with
  | |- respects _ (ret _) => apply respects_ret; apply _
  | |- respects _ (raise _) => apply respects_raise; apply _
  | |- respects _ (gets _) => apply respects_gets; apply _
  | |- respects _ (getitem _ _) => apply respects_getitem; apply _
  | |- respects _ (lift_status _) => apply respects_lift_status; apply _
  | |- respects _ (lift_result _) => apply respects_lift_result; apply _
  | |- respects _ (local_var _ _) => apply respects_local_var; apply _
  | |- respects _ (str_add _ _) => apply respects_str_add; apply _
  | |- respects _ (self_config_get _ _) => apply respects_self_config_get; apply _
  | |- respects _ (bind _ _) => apply respects_bind; try apply _; [| intros ?]
  | |- respects _ (try_except _ _) => apply respects_try_except; try apply _; [| intros ?]
  | |- respects _ (modify _) => apply respects_modify; intros ?
  | |- respects _ (os_remove _) => apply respects_os_remove; try apply _; intros ?
  | |- respects _ (if ?b then _ else _) => destruct b
  | |- respects _ (match ?x with _ => _ end) => destruct x
  end.

Ltac respects_auto := repeat respects_step.

(** A handler that only logs turns every outcome of its body into a normal
    return. *)
Lemma try_except_logged body m w :
  fst (try_except body (fun e => logging_error m e) w) = inr tt.
Proof.
  unfold try_except. destruct (body w) as [[e|[]] w1]; reflexivity.
Qed.

(** ** The frames are preorders *)

Lemma Forall_app_2' {A} (P : A -> Prop) (l1 l2 : list A) :
  Forall P l1 -> Forall P l2 -> Forall P (l1 ++ l2).
Proof. intros H1 H2. apply Forall_app. split; assumption. Qed.

#[local] Instance publish_frame_refl : Reflexive publish_frame.
Proof.
  intros w. repeat split; try (exists []; rewrite app_nil_r; auto); auto.
Qed.

#[local] Instance publish_frame_trans : Transitive publish_frame.
Proof.
  intros w1 w2 w3 (Hc1 & Hf1 & [l1 Hl1] & [c1 [Hk1 Hp1]] & Hh1)
    (Hc2 & Hf2 & [l2 Hl2] & [c2 [Hk2 Hp2]] & Hh2).
  repeat split.
  - congruence.
  - congruence.
  - exists (l1 ++ l2). rewrite Hl2, Hl1, app_assoc. reflexivity.
  - exists (c1 ++ c2). split; [rewrite Hk2, Hk1, app_assoc; reflexivity|].
    apply Forall_app_2'; assumption.
  - destruct Hh2 as [Hh2|Hh2]; [rewrite Hh2; exact Hh1 | right; exact Hh2].
Qed.

#[local] Instance clean_frame_refl : Reflexive clean_frame.
Proof.
  intros w. repeat split. exists []. rewrite app_nil_r. split; [reflexivity|constructor].
Qed.

#[local] Instance clean_frame_trans : Transitive clean_frame.
Proof.
  intros w1 w2 w3 (Hs1 & Hk1 & Ht1 & [l1 [Hl1 Hr1]]) (Hs2 & Hk2 & Ht2 & [l2 [Hl2 Hr2]]).
  repeat split; try congruence.
  exists (l1 ++ l2). split; [rewrite Hl2, Hl1, app_assoc; reflexivity|].
  apply Forall_app_2'; assumption.
Qed.

#[local] Instance datalog_frame_refl : Reflexive datalog_frame.
Proof.
  intros w. repeat split; exists []; rewrite app_nil_r; reflexivity.
Qed.

#[local] Instance datalog_frame_trans : Transitive datalog_frame.
Proof.
  intros w1 w2 w3 (Hs1 & Hf1 & Ht1 & [l1 Hl1] & [c1 Hk1])
    (Hs2 & Hf2 & Ht2 & [l2 Hl2] & [c2 Hk2]).
  repeat split; try congruence.
  - exists (l1 ++ l2). rewrite Hl2, Hl1, app_assoc. reflexivity.
  - exists (c1 ++ c2). rewrite Hk2, Hk1, app_assoc. reflexivity.
Qed.

(** ** What each stage does *)

Section StageFrames.

Variable env : Env.

Ltac frame_leaf :=
  repeat split; simpl;
  try reflexivity;
  try (exists []; rewrite app_nil_r; first [reflexivity | split; [reflexivity | constructor]]);
  try (eexists; split; [reflexivity | repeat constructor]);
  try (eexists; reflexivity);
  try (left; reflexivity);
  try (right; eexists; reflexivity).

Lemma send_publish_frame filename keyword :
  respects publish_frame (send_publish env filename keyword).
Proof.
  unfold send_publish, IpfsWorker_init, IpfsWorker_post, PinataWorker_init,
    PinataWorker_post, logging_info, logging_error, record_call.
  respects_auto; frame_leaf.
Qed.

Lemma send_publish_returns filename keyword w v :
  flag_get (config (self_ w)) "external_io" "enable" = inr v ->
  fst (send_publish env filename keyword w) = inr tt.
Proof.
  intros H. unfold send_publish, bind at 1. rewrite self_config_get_eq, H.
  destruct (truthy v); [apply try_except_logged | reflexivity].
Qed.

Lemma clean_after_record_frame filename qrpic ncf :
  respects clean_frame (clean_after_record filename qrpic ncf).
Proof.
  unfold clean_after_record, logging_info.
  respects_auto; repeat split; simpl; try reflexivity.
  all: try (exists []; rewrite app_nil_r; split; [reflexivity | constructor]).
  eexists; split; [reflexivity |].
  constructor; [left; reflexivity | constructor].
Qed.

Lemma send_clean_frame filename qrpic ncf :
  respects clean_frame (send_clean filename qrpic ncf).
Proof.
  unfold send_clean, logging_error.
  respects_auto; try apply clean_after_record_frame.
  repeat split; simpl. eexists; split; [reflexivity |].
  constructor; [right; eexists; reflexivity | constructor].
Qed.

Lemma send_clean_returns filename qrpic ncf w v :
  flag_get (config (self_ w)) "general" "delete_after_record" = inr v ->
  fst (send_clean filename qrpic ncf w) = inr tt.
Proof.
  intros H. unfold send_clean, bind at 1. rewrite self_config_get_eq, H.
  destruct (truthy v && str_truthy qrpic); [apply try_except_logged | reflexivity].
Qed.

Lemma send_clean_raises filename qrpic ncf w e :
  flag_get (config (self_ w)) "general" "delete_after_record" = inl e ->
  send_clean filename qrpic ncf w = (inl e, w).
Proof.
  intros H. unfold send_clean, bind at 1. rewrite self_config_get_eq, H. reflexivity.
Qed.

Lemma send_clean_skipped filename qrpic ncf w v :
  flag_get (config (self_ w)) "general" "delete_after_record" = inr v ->
  truthy v && str_truthy qrpic = false ->
  send_clean filename qrpic ncf w = (inr tt, w).
Proof.
  intros H Hv. unfold send_clean, bind at 1. rewrite self_config_get_eq, H, Hv.
  reflexivity.
Qed.

Lemma send_datalog_try_frame : respects datalog_frame (send_datalog_try env).
Proof.
  unfold send_datalog_try, RobonomicsWorker_init, RobonomicsWorker_post,
    logging_info, logging_error, record_call.
  respects_auto; frame_leaf.
Qed.

(** The condition of line 100, when both flags can be read. *)
Lemma send_datalog_eq w vd ve :
  flag_get (config (self_ w)) "datalog" "enable" = inr vd ->
  flag_get (config (self_ w)) "external_io" "enable" = inr ve ->
  send_datalog env w =
  if truthy vd && truthy ve
  then (inr (ipfs_hash (self_ (snd (send_datalog_try env w)))),
        snd (send_datalog_try env w))
  else (inr None, w).
Proof.
  intros Hd He. unfold send_datalog, bind at 1 2.
  rewrite self_config_get_eq, Hd.
  destruct (truthy vd) eqn:Hvd; simpl.
  - rewrite self_config_get_eq, He.
    destruct (truthy ve); [| reflexivity].
    unfold bind.
    pose proof (try_except_logged
      (bind (gets (fun w => config (self_ w)))
         (fun self_config => bind (RobonomicsWorker_init self_config)
            (fun worker => RobonomicsWorker_post env worker)))
      "Error while sending IPFS hash to chain, error: " w) as Hr.
    fold (send_datalog_try env) in Hr.
    destruct (send_datalog_try env w) as [r w1].
    simpl in Hr. subst r. reflexivity.
  - rewrite Hvd. reflexivity.
Qed.

Lemma send_datalog_raises w e :
  flag_get (config (self_ w)) "datalog" "enable" = inl e ->
  send_datalog env w = (inl e, w).
Proof.
  intros H. unfold send_datalog, bind at 1. rewrite self_config_get_eq, H. reflexivity.
Qed.

(** Line 174: an unset content hash stops [post] before anything else. *)
Lemma RobonomicsWorker_post_unset self w :
  ipfs_hash (self_ w) = None ->
  RobonomicsWorker_post env self w = (inl (ValueError (chars "ipfs_hash is None")), w).
Proof.
  intros H. unfold RobonomicsWorker_post, bind, gets. rewrite H. reflexivity.
Qed.

Lemma send_datalog_try_unset w :
  ipfs_hash (self_ w) = None ->
  calls (snd (send_datalog_try env w)) = calls w.
Proof.
  intros H. unfold send_datalog_try, try_except, bind at 1, gets.
  unfold RobonomicsWorker_init, bind at 2, getitem.
  destruct (config (self_ w) !! "transaction") as [sec|]; simpl.
  - unfold bind. simpl. rewrite RobonomicsWorker_post_unset by exact H. reflexivity.
  - reflexivity.
Qed.

(** [send] as the composition of its stages, when the four flags can be
    read. *)
Lemma send_eq filename keyword qrpic w vi ve vg vd :
  flag_get (config (self_ w)) "intro" "enable" = inr vi ->
  flag_get (config (self_ w)) "external_io" "enable" = inr ve ->
  flag_get (config (self_ w)) "general" "delete_after_record" = inr vg ->
  flag_get (config (self_ w)) "datalog" "enable" = inr vd ->
  let w1 := snd (send_publish env filename keyword w) in
  let w2 := snd (send_clean filename qrpic (if truthy vi then Some filename else None) w1) in
  send env filename keyword qrpic w = send_datalog env w2
  /\ config (self_ w2) = config (self_ w).
Proof.
  intros Hi He Hg Hd w1 w2.
  pose proof (send_publish_frame filename keyword w) as (Hc1 & _).
  fold w1 in Hc1.
  pose proof (send_clean_frame filename qrpic (if truthy vi then Some filename else None) w1)
    as (Hs2 & _).
  fold w2 in Hs2.
  split; [| rewrite Hs2; exact Hc1].
  unfold send, bind at 1. rewrite send_intro_eq, Hi. simpl.
  unfold bind at 1.
  pose proof (send_publish_returns filename keyword w ve He) as Hr1.
  subst w2 w1. destruct (send_publish env filename keyword w) as [r1 w1].
  simpl in *. subst r1. unfold bind at 1.
  rewrite <- Hc1 in Hg.
  pose proof (send_clean_returns filename qrpic
    (if truthy vi then Some filename else None) w1 vg Hg) as Hr2.
  destruct (send_clean filename qrpic _ w1) as [r2 w2].
  simpl in *. subst r2. reflexivity.
Qed.

(** Publication when the storage step fails: the error is logged once and
    the gateway is left as it was. *)
Lemma send_publish_storage_fails filename keyword w ve e :
  flag_get (config (self_ w)) "external_io" "enable" = inr ve ->
  truthy ve = true ->
  storage_fails env filename e ->
  exists lc,
    send_publish env filename keyword w =
    (inr tt,
     set_log (log w ++ [LogRecord ERROR
        "Error while publishing to IPFS or pinning to pinata. Error: " (Some e)])
       (set_calls (calls w ++ lc) w)).
Proof.
  intros He Hve Hfail. unfold send_publish, bind at 1.
  rewrite self_config_get_eq, He, Hve.
  unfold IpfsWorker_init, IpfsWorker_post. unfold_monad.
  destruct Hfail as [Hc | [[Hc Ha] | (Hc & -> & res & Ha & Hh)]]; simpl.
  - rewrite Hc. simpl. exists [CallConnect]. reflexivity.
  - rewrite Hc. simpl. rewrite Ha. simpl.
    exists [CallConnect; CallAdd filename]. unfold set_log, set_calls. simpl.
    rewrite <- app_assoc. reflexivity.
  - rewrite Hc. simpl. rewrite Ha. simpl. rewrite Hh. simpl.
    exists [CallConnect; CallAdd filename]. unfold set_log, set_calls. simpl.
    rewrite <- app_assoc. reflexivity.
Qed.

(** Publication when the storage step succeeds: the hash is stored in the
    gateway, whatever happens to the short link and to the pinning. *)
Lemma send_publish_storage_returns filename keyword w ve h :
  flag_get (config (self_ w)) "external_io" "enable" = inr ve ->
  truthy ve = true ->
  storage_returns env filename h ->
  exists w1,
    send_publish env filename keyword w = (inr tt, w1)
    /\ ipfs_hash (self_ w1) = Some h
    /\ calls w1 = calls w ++ [CallConnect; CallAdd filename]
                   ++ (if str_truthy keyword then [CallUpdateShortUrl keyword h] else []).
Proof.
  intros He Hve (Hc & res & Ha & Hh). unfold send_publish, bind at 1.
  rewrite self_config_get_eq, He, Hve.
  unfold IpfsWorker_init, IpfsWorker_post, PinataWorker_init, PinataWorker_post.
  unfold_monad. simpl. rewrite Hc. simpl. rewrite Ha. simpl. rewrite Hh. simpl.
  destruct (str_truthy keyword); simpl.
  - destruct (env_update_short_url env keyword h (config (self_ w))); simpl.
    + eexists. split; [reflexivity |]. split; [reflexivity |].
      simpl. rewrite <- !app_assoc. reflexivity.
    + rewrite self_config_get_eq. unfold flag_get. simpl.
      destruct (config (self_ w) !! "pinata") as [sec|]; simpl;
        [destruct (sec !! "enable") as [vp|]; simpl; [destruct (truthy vp); simpl|]|];
        (eexists; split; [reflexivity |]; split; [reflexivity |];
         simpl; rewrite <- !app_assoc; reflexivity).
  - rewrite self_config_get_eq. unfold flag_get. simpl.
    destruct (config (self_ w) !! "pinata") as [sec|]; simpl;
      [destruct (sec !! "enable") as [vp|]; simpl; [destruct (truthy vp); simpl|]|];
      (eexists; split; [reflexivity |]; split; [reflexivity |];
       simpl; rewrite <- !app_assoc; reflexivity).
Qed.

Lemma flag_get_inl cfg s k e :
  flag_get cfg s k = inl e -> flag_value cfg s k = None /\ exists key, e = KeyError key.
Proof.
  unfold flag_value. intros H. rewrite H. split; [reflexivity |].
  unfold flag_get in H.
  destruct (cfg !! s) as [sec|]; [destruct (sec !! k)|]; inversion H; eauto.
Qed.

Lemma flag_get_inr cfg s k v :
  flag_get cfg s k = inr v -> flag_value cfg s k = Some v.
Proof. unfold flag_value. intros H. rewrite H. reflexivity. Qed.

(** Every run of [send] either stops at a flag it cannot read, with a
    [KeyError], or goes through its stages down to the ledger stage. *)
Lemma send_cases filename keyword qrpic w :
  exists w1 w2,
    publish_frame w w1 /\ clean_frame w1 w2 /\
    ((flag_missing (config (self_ w))
      /\ exists key w', send env filename keyword qrpic w = (inl (KeyError key), w')
                       /\ (w' = w \/ w' = w1 \/ w' = w2))
     \/ (flags_present (config (self_ w))
         /\ send env filename keyword qrpic w = send_datalog env w2)).
Proof.
  destruct (flag_get (config (self_ w)) "intro" "enable") as [e|vi] eqn:Hi.
  { apply flag_get_inl in Hi as Hm. destruct Hm as [Hm [key ->]].
    exists w, w. split; [reflexivity |]. split; [reflexivity |]. left.
    split; [left; exact Hm |]. exists key, w. split; [| auto].
    unfold send, bind. rewrite send_intro_eq, Hi. reflexivity. }
  destruct (flag_get (config (self_ w)) "external_io" "enable") as [e|ve] eqn:He.
  { apply flag_get_inl in He as Hm. destruct Hm as [Hm [key ->]].
    exists w, w. split; [reflexivity |]. split; [reflexivity |]. left.
    split; [right; left; exact Hm |]. exists key, w. split; [| auto].
    unfold send, bind at 1. rewrite send_intro_eq, Hi. simpl.
    unfold bind. rewrite send_publish_raises with (e := KeyError key) by exact He.
    reflexivity. }
  pose proof (send_publish_frame filename keyword w) as Hf1.
  pose proof (send_publish_returns filename keyword w ve He) as Hr1.
  set (ncf := if truthy vi then Some filename else None).
  destruct (send_publish env filename keyword w) as [r1 w1] eqn:Hp.
  simpl in Hf1, Hr1. subst r1.
  pose proof Hf1 as (Hc1 & _).
  pose proof (send_clean_frame filename qrpic ncf w1) as Hf2.
  destruct (flag_get (config (self_ w)) "general" "delete_after_record") as [e|vg] eqn:Hg.
  { apply flag_get_inl in Hg as Hm. destruct Hm as [Hm [key ->]].
    exists w1, w1. split; [exact Hf1 |]. split; [reflexivity |]. left.
    split; [right; right; left; exact Hm |]. exists key, w1. split; [| auto].
    unfold send, bind at 1. rewrite send_intro_eq, Hi. simpl.
    unfold bind at 1. rewrite Hp. unfold bind.
    rewrite <- Hc1 in Hg.
    rewrite send_clean_raises with (e := KeyError key) by exact Hg. reflexivity. }
  exists w1, (snd (send_clean filename qrpic ncf w1)).
  split; [exact Hf1 |]. split; [exact Hf2 |].
  pose proof (send_eq filename keyword qrpic w vi ve vg) as Heq.
  rewrite Hp in Heq. simpl in Heq. fold ncf in Heq.
  destruct (flag_get (config (self_ w)) "datalog" "enable") as [e|vd] eqn:Hd.
  - apply flag_get_inl in Hd as Hm. destruct Hm as [Hm [key ->]].
    left. split; [right; right; right; exact Hm |].
    exists key, (snd (send_clean filename qrpic ncf w1)). split; [| auto].
    unfold send, bind at 1. rewrite send_intro_eq, Hi. simpl. fold ncf.
    unfold bind at 1. rewrite Hp. unfold bind at 1.
    rewrite <- Hc1 in Hg.
    pose proof (send_clean_returns filename qrpic ncf w1 vg Hg) as Hr2.
    destruct Hf2 as (Hs2 & _).
    destruct (send_clean filename qrpic ncf w1) as [r2 w2]. simpl in *. subst r2.
    apply send_datalog_raises. rewrite Hs2, Hc1. exact Hd.
  - right. split.
    + unfold flags_present.
      rewrite (flag_get_inr _ _ _ _ Hi), (flag_get_inr _ _ _ _ He),
        (flag_get_inr _ _ _ _ Hg), (flag_get_inr _ _ _ _ Hd). eauto.
    + exact (proj1 (Heq vd Hi He Hg eq_refl)).
Qed.

End StageFrames.

(** ** Helper facts for the main results *)

Lemma is_Some_flag_get cfg s k :
  is_Some (flag_value cfg s k) -> exists v, flag_get cfg s k = inr v.
Proof.
  intros [v Hv]. exists v. apply flag_value_Some. exact Hv.
Qed.

Lemma flags_present_inv cfg :
  flags_present cfg ->
  exists vi ve vg vd,
    flag_get cfg "intro" "enable" = inr vi
    /\ flag_get cfg "external_io" "enable" = inr ve
    /\ flag_get cfg "general" "delete_after_record" = inr vg
    /\ flag_get cfg "datalog" "enable" = inr vd.
Proof.
  intros (Hi & He & Hg & Hd).
  apply is_Some_flag_get in Hi as [vi Hi]. apply is_Some_flag_get in He as [ve He].
  apply is_Some_flag_get in Hg as [vg Hg]. apply is_Some_flag_get in Hd as [vd Hd].
  exists vi, ve, vg, vd. auto.
Qed.

Lemma flags_present_not_missing cfg : flags_present cfg -> flag_missing cfg -> False.
Proof.
  intros (Hi & He & Hg & Hd) [H | [H | [H | H]]];
    [rewrite H in Hi | rewrite H in He | rewrite H in Hg | rewrite H in Hd];
    match goal with Hx : is_Some None |- _ => destruct Hx; discriminate end.
Qed.

Lemma no_popen_Exists (l : list call) :
  Forall (fun c => is_popen c = false) l ->
  Exists (fun c => is_popen c = true) l -> False.
Proof.
  induction 1 as [| c l Hc _ IH]; intros Hex; inversion Hex; subst;
    [congruence | auto].
Qed.


(** The files after the cleanup stage, when it runs with the original
    filename bound (intro enabled). *)
Lemma send_clean_fs filename qrpic w vg vi :
  flag_get (config (self_ w)) "general" "delete_after_record" = inr vg ->
  flag_get (config (self_ w)) "intro" "enable" = inr vi ->
  truthy vg = true ->
  qrpic <> EmptyString ->
  fs (snd (send_clean filename qrpic (Some filename) w)) =
  match fs w !! filename with
  | None => fs w
  | Some _ => delete qrpic (delete filename (fs w))
  end.
Proof.
  intros Hg Hi Hv Hq. unfold send_clean, bind at 1.
  rewrite self_config_get_eq, Hg, Hv, (str_truthy_true _ Hq). simpl.
  unfold clean_after_record, os_remove. unfold_monad. simpl.
  destruct (fs w !! filename) as [c|] eqn:Hf; simpl; [| reflexivity].
  destruct (delete filename (fs w) !! qrpic) as [c'|] eqn:Hqr; simpl.
  - unfold flag_get in Hi.
    destruct (config (self_ w) !! "intro") as [sec|]; [| discriminate]. simpl.
    destruct (sec !! "enable") as [v|]; [| discriminate]. simpl.
    destruct (truthy v); simpl; [| reflexivity].
    rewrite lookup_delete_ne.
    + rewrite lookup_delete_eq. reflexivity.
    + intros ->. rewrite lookup_delete_eq in Hqr. discriminate.
  - symmetry. apply delete_id. exact Hqr.
Qed.

Lemma flag_value_inv cfg s k v :
  flag_value cfg s k = Some v ->
  exists sec, cfg !! s = Some sec /\ sec !! k = Some v.
Proof.
  unfold flag_value, flag_get.
  destruct (cfg !! s) as [sec|]; [| discriminate].
  destruct (sec !! k) as [v'|] eqn:Hk; [| discriminate].
  intros H. inversion H; subst. eauto.
Qed.

Section Ledger.

Variable env : Env.

(** The ledger stage when the hash is set and the ledger fields are strings:
    one sub-process, with the command line of lines 176-182. *)
Lemma send_datalog_try_calls w h path remote key :
  ipfs_hash (self_ w) = Some h ->
  flag_value (config (self_ w)) "transaction" "path_to_robonomics_file" = Some (VStr path) ->
  flag_value (config (self_ w)) "transaction" "remote" = Some (VStr remote) ->
  flag_value (config (self_ w)) "camera" "key" = Some (VStr key) ->
  calls (snd (send_datalog_try env w))
  = calls w ++ [CallPopen (datalog_program h path remote key)].
Proof.
  intros Hh Hp Hr Hk.
  apply flag_value_inv in Hp as (sec & Hsec & Hp).
  apply flag_value_inv in Hr as (sec' & Hsec' & Hr).
  rewrite Hsec in Hsec'. inversion Hsec'; subst sec'.
  apply flag_value_inv in Hk as (cam & Hcam & Hk).
  unfold send_datalog_try, RobonomicsWorker_init, RobonomicsWorker_post.
  unfold_monad. simpl. rewrite Hsec. simpl. rewrite Hh. simpl.
  rewrite Hp. simpl. rewrite Hr. simpl. rewrite Hcam. simpl. rewrite Hk. simpl.
  fold (datalog_program h path remote key).
  destruct (env_popen env (datalog_program h path remote key)); reflexivity.
Qed.

End Ledger.

Section General.

Variable env : Env.

(** What [send] returns when the store answers [h]: the hash when the
    ledger stage is enabled, [None] otherwise. *)
Lemma send_result_with_storage filename keyword qrpic w h ve vd :
  flags_present (config (self_ w)) ->
  flag_value (config (self_ w)) "external_io" "enable" = Some ve ->
  truthy ve = true ->
  flag_value (config (self_ w)) "datalog" "enable" = Some vd ->
  storage_returns env filename h ->
  fst (send env filename keyword qrpic w)
  = inr (if truthy vd then Some h else None).
Proof.
  intros Hp Hve Ht Hvd Hstore.
  apply flags_present_inv in Hp as (vi & ve' & vg & vd' & Hi & He & Hg & Hd).
  apply flag_value_Some in Hve, Hvd.
  rewrite Hve in He. inversion He; subst ve'.
  rewrite Hvd in Hd. inversion Hd; subst vd'.
  destruct (send_eq env filename keyword qrpic w vi ve vg vd Hi Hve Hg Hvd) as [Heq Hcfg].
  destruct (send_publish_storage_returns env filename keyword w ve h Hve Ht Hstore)
    as (w1 & Hpub & Hh1 & _).
  rewrite Hpub in Heq, Hcfg. simpl in Heq, Hcfg.
  set (ncf := if truthy vi then Some filename else None) in *.
  pose proof (send_clean_frame filename qrpic ncf w1) as (Hs2 & _).
  set (w2 := snd (send_clean filename qrpic ncf w1)) in *.
  rewrite <- Hcfg in Hve, Hvd.
  rewrite Heq, (send_datalog_eq env w2 vd ve Hvd Hve), Ht, andb_true_r.
  pose proof (send_datalog_try_frame env w2) as (Hs3 & _).
  destruct (truthy vd); simpl; [rewrite Hs3, Hs2, Hh1 |]; reflexivity.
Qed.

(** [PinataWorker.post] only logs and records the started thread; the
    pinning client is not called on the caller's side. *)
Lemma PinataWorker_post_dispatches self filename w :
  exists w',
    PinataWorker_post self filename w = (inr tt, w')
    /\ calls w' = calls w
    /\ threads w' = threads w ++ [{| thread_self := self; thread_args := chars filename |}].
Proof.
  unfold PinataWorker_post. unfold_monad. simpl.
  eexists. split; [reflexivity |]. split; reflexivity.
Qed.

(** The started thread reaches [_pin_to_pinata] only for a filename of one
    character. *)
Lemma Thread_run_arity self filename w :
  String.length filename <> 1 ->
  Thread_run env {| thread_self := self; thread_args := chars filename |} w
  = (inl (TypeError "_pin_to_pinata() takes 2 positional arguments"), w).
Proof.
  intros Hlen. unfold Thread_run. simpl.
  destruct filename as [| c [| c' s]]; simpl in *; [reflexivity | congruence | reflexivity].
Qed.

End General.

(** ** The log outside and inside the cleanup stage *)

#[local] Instance no_cleanup_log_refl : Reflexive no_cleanup_log.
Proof. intros w. exists []. rewrite app_nil_r. split; [reflexivity | constructor]. Qed.

#[local] Instance no_cleanup_log_trans : Transitive no_cleanup_log.
Proof.
  intros w1 w2 w3 (l1 & Hl1 & H1) (l2 & Hl2 & H2).
  exists (l1 ++ l2). split; [rewrite Hl2, Hl1, app_assoc; reflexivity |].
  apply Forall_app_2'; assumption.
Qed.

Lemma not_cleanup_info m : m <> "Removing files" -> ~ cleanup_record (LogRecord INFO m None).
Proof.
  intros Hm [H | [e H]]; [inversion H; congruence | discriminate H].
Qed.

Lemma not_cleanup_error m e :
  m <> "Error while deleting file, error: " ->
  ~ cleanup_record (LogRecord ERROR m (Some e)).
Proof.
  intros Hm [H | [e' H]]; [discriminate H | inversion H; congruence].
Qed.

Ltac no_cleanup_leaf :=
  first
    [ exists []; rewrite app_nil_r; split; [reflexivity | constructor]
    | eexists; split; [reflexivity |];
      constructor; [| constructor];
      first [apply not_cleanup_info | apply not_cleanup_error];
      let H := fresh in intros H; cbv in H; discriminate H ].

Section CleanupLog.

Variable env : Env.

Lemma send_publish_no_cleanup_log filename keyword :
  respects no_cleanup_log (send_publish env filename keyword).
Proof.
  unfold send_publish, IpfsWorker_init, IpfsWorker_post, PinataWorker_init,
    PinataWorker_post, logging_info, logging_error, record_call.
  respects_auto; simpl; no_cleanup_leaf.
Qed.

Lemma send_datalog_try_no_cleanup_log :
  respects no_cleanup_log (send_datalog_try env).
Proof.
  unfold send_datalog_try, RobonomicsWorker_init, RobonomicsWorker_post,
    logging_info, logging_error, record_call.
  respects_auto; simpl; no_cleanup_leaf.
Qed.

End CleanupLog.

(** The records of the cleanup stage when it runs with the original filename
    bound to the working filename: its start, and the one removal that
    failed. *)
Lemma send_clean_log filename qrpic w vg vi :
  flag_get (config (self_ w)) "general" "delete_after_record" = inr vg ->
  flag_get (config (self_ w)) "intro" "enable" = inr vi ->
  truthy vg = true ->
  truthy vi = true ->
  qrpic <> EmptyString ->
  exists x,
    log (snd (send_clean filename qrpic (Some filename) w))
    = log w ++ [LogRecord INFO "Removing files" None;
                LogRecord ERROR "Error while deleting file, error: "
                  (Some (FileNotFoundError x))]
    /\ (fs w !! filename = None -> x = filename)
    /\ (is_Some (fs w !! filename) -> fs w !! qrpic = None -> x = qrpic).
Proof.
  intros Hg Hi Hv Hti Hq. unfold send_clean, bind at 1.
  rewrite self_config_get_eq, Hg, Hv, (str_truthy_true _ Hq). simpl.
  unfold clean_after_record, os_remove. unfold_monad. simpl.
  destruct (fs w !! filename) as [c|] eqn:Hf; simpl.
  - destruct (delete filename (fs w) !! qrpic) as [c'|] eqn:Hqr; simpl.
    + unfold flag_get in Hi.
      destruct (config (self_ w) !! "intro") as [sec|]; [| discriminate]. simpl.
      destruct (sec !! "enable") as [v|]; [| discriminate]. simpl.
      inversion Hi; subst v. rewrite Hti. simpl.
      rewrite lookup_delete_ne
        by (intros ->; rewrite lookup_delete_eq in Hqr; discriminate).
      rewrite lookup_delete_eq. simpl.
      exists filename. split; [rewrite <- app_assoc; reflexivity |].
      split; [discriminate |]. intros _ Hqn.
      destruct (decide (filename = qrpic)) as [-> | Hne]; [reflexivity |].
      rewrite lookup_delete_ne in Hqr by exact Hne. congruence.
    + exists qrpic. split; [rewrite <- app_assoc; reflexivity |].
      split; [discriminate | reflexivity].
  - exists filename. split; [rewrite <- app_assoc; reflexivity |].
    split; [reflexivity | intros [c Hc]; discriminate].
Qed.

(** ** Main results *)

(** C1 does not hold on the code: with external_io on, datalog off and a
    store that answers [Qm123], the hash is stored in the gateway but
    [send] falls off its end and returns [None], because the [return]
    statement sits inside the [if] block of the ledger stage. *)
Theorem send_returns_none_without_datalog :
  let w := fresh_world (sample_config false true false false false) sample_files in
  storage_returns sample_env "vid.mp4" "Qm123"
  /\ fst (send sample_env "vid.mp4" "" "" w) = inr None
  /\ ipfs_hash (self_ (snd (send sample_env "vid.mp4" "" "" w))) = Some "Qm123".
Proof.
  intros w. split.
  - split; [reflexivity |]. eexists. split; reflexivity.
  - split; vm_compute; reflexivity.
Qed.

(** C2. [RobonomicsWorker.post] called while the gateway's content hash is
    unset raises [ValueError] at once and leaves the world as it was, for
    every worker configuration; and in every run of [send], a sub-process
    is started only when the content hash is set. *)
Theorem ledger_requires_content_hash (env : Env) :
  (forall self w,
      ipfs_hash (self_ w) = None ->
      RobonomicsWorker_post env self w
      = (inl (ValueError (chars "ipfs_hash is None")), w))
  /\ (forall filename keyword qrpic w,
        let w' := snd (send env filename keyword qrpic w) in
        exists l,
          calls w' = calls w ++ l
          /\ (Exists (fun c => is_popen c = true) l ->
              is_Some (ipfs_hash (self_ w')))).
Proof.
  split; [intros self w; apply RobonomicsWorker_post_unset |].
  intros filename keyword qrpic w w'. subst w'.
  destruct (send_cases env filename keyword qrpic w)
    as (w1 & w2 & Hf1 & Hf2 & Hcases).
  destruct Hf1 as (Hc1 & _ & _ & (l1 & Hl1 & Hnp) & _).
  destruct Hf2 as (Hs2 & Hk2 & _).
  assert (Hquiet : forall w', w' = w \/ w' = w1 \/ w' = w2 ->
    exists l, calls w' = calls w ++ l
      /\ (Exists (fun c => is_popen c = true) l -> is_Some (ipfs_hash (self_ w')))).
  { intros w' [-> | [-> | ->]].
    - exists []. rewrite app_nil_r. split; [reflexivity |]. intros H; inversion H.
    - exists l1. split; [exact Hl1 |]. intros H. exfalso. eapply no_popen_Exists; eauto.
    - exists l1. split; [congruence |]. intros H. exfalso. eapply no_popen_Exists; eauto. }
  destruct Hcases as [(_ & key & w' & Heq & Hw') | (Hp & Heq)].
  - rewrite Heq. simpl. apply Hquiet. exact Hw'.
  - rewrite Heq. apply flags_present_inv in Hp as (vi & ve & vg & vd & _ & He & _ & Hd).
    assert (Hcfg : config (self_ w2) = config (self_ w)) by (rewrite Hs2; exact Hc1).
    rewrite <- Hcfg in He, Hd.
    rewrite (send_datalog_eq env w2 vd ve Hd He).
    destruct (truthy vd && truthy ve); simpl; [| apply Hquiet; auto].
    pose proof (send_datalog_try_frame env w2) as (Hs3 & _ & _ & _ & (l3 & Hl3)).
    exists (l1 ++ l3). split; [rewrite Hl3, Hk2, Hl1, app_assoc; reflexivity |].
    intros Hex. rewrite Hs3.
    destruct (ipfs_hash (self_ w2)) as [h|] eqn:Hh; [eauto |].
    exfalso. pose proof (send_datalog_try_unset env w2 Hh) as Hsame.
    rewrite Hl3 in Hsame. rewrite <- (app_nil_r (calls w2)) in Hsame at 2.
    apply app_inv_head in Hsame. subst l3. rewrite app_nil_r in Hex.
    eapply no_popen_Exists; eauto.
Qed.

Lemma ledger_requires_content_hash_witness :
  let w := fresh_world (sample_config false true false true false) sample_files in
  ipfs_hash (self_ w) = None
  /\ RobonomicsWorker_post sample_env
       {| robonomics_target := "Robonomics Network"; robonomics_config := ∅ |} w
     = (inl (ValueError (chars "ipfs_hash is None")), w).
Proof.
  intros w. split; [reflexivity |].
  apply (proj1 (ledger_requires_content_hash sample_env)). reflexivity.
Defined.




(** C4. With every flag readable and [external_io.enable] false, [send]
    returns [None], makes no call to an external service, starts no thread
    and leaves the gateway untouched; the only records it can log are those
    of the cleanup stage.  The ledger stage is skipped whatever
    [datalog.enable] is. *)
Theorem send_disabled_invokes_no_worker
    (env : Env) (filename keyword qrpic : string) (w : world) (ve : pyval) :
  flags_present (config (self_ w)) ->
  flag_value (config (self_ w)) "external_io" "enable" = Some ve ->
  truthy ve = false ->
  exists w',
    send env filename keyword qrpic w = (inr None, w')
    /\ self_ w' = self_ w
    /\ calls w' = calls w
    /\ threads w' = threads w
    /\ exists l, log w' = log w ++ l /\ Forall cleanup_record l.
Proof.
  intros Hp Hve Hfalse.
  apply flags_present_inv in Hp as (vi & ve' & vg & vd & Hi & He & Hg & Hd).
  apply flag_value_Some in Hve. rewrite Hve in He. inversion He; subst ve'.
  destruct (send_eq env filename keyword qrpic w vi ve vg vd Hi Hve Hg Hd) as [Heq Hcfg].
  rewrite (send_publish_skipped env filename keyword w ve Hve Hfalse) in Heq, Hcfg.
  simpl in Heq, Hcfg.
  set (ncf := if truthy vi then Some filename else None) in *.
  pose proof (send_clean_frame filename qrpic ncf w) as (Hs & Hk & Ht & Hl).
  set (w2 := snd (send_clean filename qrpic ncf w)) in *.
  exists w2. rewrite Heq. rewrite <- Hcfg in Hd, Hve.
  rewrite (send_datalog_eq env w2 vd ve Hd Hve), Hfalse, andb_false_r.
  auto.
Qed.

Lemma send_disabled_invokes_no_worker_witness :
  let w := fresh_world (sample_config false false true true true) sample_files in
  exists w',
    send sample_env "vid.mp4" "kw" "qr.png" w = (inr None, w')
    /\ self_ w' = self_ w
    /\ calls w' = calls w
    /\ threads w' = threads w
    /\ exists l, log w' = log w ++ l /\ Forall cleanup_record l.
Proof.
  intros w.
  apply (send_disabled_invokes_no_worker sample_env "vid.mp4" "kw" "qr.png" w (VBool false)).
  - unfold flags_present. vm_compute. repeat split; eexists; reflexivity.
  - vm_compute. reflexivity.
  - reflexivity.
Defined.

(** C5 does not hold on the code: with intro on and the intro clip on disk,
    [concatenate] would return the renamed file, yet [send] never calls it;
    the store receives the original filename, no concatenation is logged
    and no sub-process is started. *)
Theorem send_never_concatenates :
  let w := fresh_world (sample_config true true false false false) sample_files in
  fst (concatenate sample_env "/srv" "vid.mp4" w) = inr "vid_intro.mp4"
  /\ calls (snd (send sample_env "vid.mp4" "" "" w)) = [CallConnect; CallAdd "vid.mp4"]
  /\ log (snd (send sample_env "vid.mp4" "" "" w))
     = [LogRecord INFO "Published to IPFS, hash: Qm123" None].
Proof.
  intros w. repeat split; vm_compute; reflexivity.
Qed.

(** C6, as stated, fails: with intro and delete_after_record on and a QR
    path given, but the working file absent from the disk, the first
    removal raises, the single handler of the stage catches it, and the QR
    file is still there when [send] returns. *)
Lemma cleanup_keeps_qr_when_video_missing :
  ~ files_gone_after_send sample_env "vid.mp4" "" "qr.png"
      (fresh_world (sample_config true false false false true) {[ "qr.png" := "qr" ]}).
Proof.
  intros H.
  destruct (H (VBool true)) as [_ Hq].
  - vm_compute. reflexivity.
  - reflexivity.
  - discriminate.
  - vm_compute in Hq. discriminate.
Qed.

(** C6, amended. With the four flags readable, intro and
    delete_after_record on and a QR path given: [send] returns normally.
    The removals run in order, working file first, then the QR file, under
    the one handler of the stage: the stage logs its start and exactly one
    error, for the removal that failed, and no other stage logs a cleanup
    record.  So the working file never exists afterwards, the QR file is
    gone whenever the working file was there to be removed, and when the
    working file is missing its removal is the one that fails and nothing
    is removed at all; when only the QR file is missing, its removal is the
    one that fails. *)
Theorem cleanup_removes_files_in_order
    (env : Env) (filename keyword qrpic : string) (w : world) (vi vg : pyval) :
  flags_present (config (self_ w)) ->
  flag_value (config (self_ w)) "intro" "enable" = Some vi ->
  truthy vi = true ->
  flag_value (config (self_ w)) "general" "delete_after_record" = Some vg ->
  truthy vg = true ->
  qrpic <> EmptyString ->
  let w' := snd (send env filename keyword qrpic w) in
  (exists r, fst (send env filename keyword qrpic w) = inr r)
  /\ fs w' !! filename = None
  /\ (is_Some (fs w !! filename) -> fs w' !! qrpic = None)
  /\ (fs w !! filename = None -> fs w' = fs w)
  /\ (exists before after x,
        log w' = log w ++ before
                   ++ [LogRecord INFO "Removing files" None;
                       LogRecord ERROR "Error while deleting file, error: "
                         (Some (FileNotFoundError x))]
                   ++ after
        /\ Forall (fun r => ~ cleanup_record r) before
        /\ Forall (fun r => ~ cleanup_record r) after
        /\ (fs w !! filename = None -> x = filename)
        /\ (is_Some (fs w !! filename) -> fs w !! qrpic = None -> x = qrpic)).
Proof.
  intros Hp Hvi Hti Hvg Htg Hq w'. subst w'.
  apply flags_present_inv in Hp as (vi' & ve & vg' & vd & Hi & He & Hg & Hd).
  apply flag_value_Some in Hvi, Hvg.
  rewrite Hvi in Hi. inversion Hi; subst vi'.
  rewrite Hvg in Hg. inversion Hg; subst vg'.
  destruct (send_eq env filename keyword qrpic w vi ve vg vd Hvi He Hvg Hd) as [Heq Hcfg].
  rewrite Hti in Heq, Hcfg.
  pose proof (send_publish_frame env filename keyword w) as (Hc1 & Hf1 & _).
  pose proof (send_publish_no_cleanup_log env filename keyword w) as (l1 & Hl1 & Hn1).
  set (w1 := snd (send_publish env filename keyword w)) in *.
  assert (Hfs2 := send_clean_fs filename qrpic w1 vg vi).
  assert (Hlog2 := send_clean_log filename qrpic w1 vg vi).
  rewrite Hc1 in Hfs2, Hlog2.
  specialize (Hfs2 Hvg Hvi Htg Hq). specialize (Hlog2 Hvg Hvi Htg Hti Hq).
  rewrite Hf1 in Hfs2, Hlog2.
  destruct Hlog2 as (x & Hl2 & Hx1 & Hx2).
  set (w2 := snd (send_clean filename qrpic (Some filename) w1)) in *.
  rewrite <- Hcfg in He, Hd.
  pose proof (send_datalog_try_frame env w2) as (_ & Hf3 & _).
  pose proof (send_datalog_try_no_cleanup_log env w2) as (l3 & Hl3 & Hn3).
  assert (Hfinal : exists r w3 after,
    send_datalog env w2 = (inr r, w3) /\ fs w3 = fs w2
    /\ log w3 = log w2 ++ after /\ Forall (fun r => ~ cleanup_record r) after).
  { rewrite (send_datalog_eq env w2 vd ve Hd He).
    destruct (truthy vd && truthy ve).
    - eexists _, _, l3. auto.
    - eexists _, _, []. rewrite app_nil_r. auto. }
  rewrite Heq.
  destruct Hfinal as (r & w3 & after & -> & Hfs3 & Hlog3 & Hn3'). simpl.
  rewrite Hfs3, Hfs2.
  split; [eauto |].
  assert (Hlog : exists before after0 x0,
    log w3 = log w ++ before
               ++ [LogRecord INFO "Removing files" None;
                   LogRecord ERROR "Error while deleting file, error: "
                     (Some (FileNotFoundError x0))]
               ++ after0
    /\ Forall (fun r => ~ cleanup_record r) before
    /\ Forall (fun r => ~ cleanup_record r) after0
    /\ (fs w !! filename = None -> x0 = filename)
    /\ (is_Some (fs w !! filename) -> fs w !! qrpic = None -> x0 = qrpic)).
  { exists l1, after, x. split; [| auto].
    rewrite Hlog3, Hl2, Hl1. rewrite <- !app_assoc. reflexivity. }
  destruct (fs w !! filename) as [c|] eqn:Hf.
  - split; [| split; [intros _; apply lookup_delete_eq | split; [discriminate | exact Hlog]]].
    destruct (decide (qrpic = filename)) as [-> | Hne].
    + apply lookup_delete_eq.
    + rewrite lookup_delete_ne by exact Hne. apply lookup_delete_eq.
  - split; [exact Hf |]. split; [intros [c Hc]; discriminate |].
    split; [reflexivity | exact Hlog].
Qed.

Lemma cleanup_removes_files_in_order_witness :
  let w := fresh_world (sample_config true true true true true) sample_files in
  let w' := snd (send sample_env "vid.mp4" "kw" "qr.png" w) in
  is_Some (fs w !! "vid.mp4")
  /\ fs w' !! "vid.mp4" = None
  /\ fs w' !! "qr.png" = None
  /\ exists before after x,
       log w' = log w ++ before
                  ++ [LogRecord INFO "Removing files" None;
                      LogRecord ERROR "Error while deleting file, error: "
                        (Some (FileNotFoundError x))]
                  ++ after.
Proof.
  intros w w'.
  assert (Hex : is_Some (fs w !! "vid.mp4")) by (eexists; vm_compute; reflexivity).
  split; [exact Hex |].
  destruct (cleanup_removes_files_in_order sample_env "vid.mp4" "kw" "qr.png" w
              (VBool true) (VBool true))
    as (_ & Hv & Hqr & _ & (before & after & x & Hlog & _)).
  - unfold flags_present. vm_compute. repeat split; eexists; reflexivity.
  - vm_compute. reflexivity.
  - reflexivity.
  - vm_compute. reflexivity.
  - reflexivity.
  - discriminate.
  - split; [exact Hv |]. split; [exact (Hqr Hex) |].
    exists before, after, x. exact Hlog.
Defined.

(** C7 does not hold on the code: [post] hands the filename itself to the
    thread as its argument sequence, so the thread calls [_pin_to_pinata]
    with one argument per character and dies with a [TypeError] before any
    submission, although both credentials are present and a direct call
    would have pinned the file. *)
Theorem pinning_thread_never_submits :
  let w := fresh_world (sample_config false true true false false) sample_files in
  let w1 := snd (PinataWorker_post sample_pinata_worker "vid.mp4" w) in
  calls (snd (PinataWorker_pin_to_pinata sample_env sample_pinata_worker "vid.mp4" w))
  = [CallPinFile (VStr "api-key") (VStr "api-secret") "vid.mp4"]
  /\ exists t,
       threads w1 = [t]
       /\ fst (Thread_run sample_env t w1)
          = inl (TypeError "_pin_to_pinata() takes 2 positional arguments")
       /\ calls (snd (Thread_run sample_env t w1)) = [].
Proof.
  intros w w1. split; [vm_compute; reflexivity |].
  eexists. split; [reflexivity |]. split; vm_compute; reflexivity.
Qed.

(** C8. Scenario: intro off, external_io on, datalog on, delete_after_record
    off (and pinata off), the ledger fields present, the store answering
    [Qm123].  Then [send] returns [Qm123] and starts exactly one
    sub-process, the ledger command carrying [Qm123]. *)
Theorem send_scenario_datalog
    (env : Env) (filename keyword qrpic path remote key : string) (w : world) :
  flag_value (config (self_ w)) "intro" "enable" = Some (VBool false) ->
  flag_value (config (self_ w)) "external_io" "enable" = Some (VBool true) ->
  flag_value (config (self_ w)) "pinata" "enable" = Some (VBool false) ->
  flag_value (config (self_ w)) "datalog" "enable" = Some (VBool true) ->
  flag_value (config (self_ w)) "general" "delete_after_record" = Some (VBool false) ->
  flag_value (config (self_ w)) "transaction" "path_to_robonomics_file" = Some (VStr path) ->
  flag_value (config (self_ w)) "transaction" "remote" = Some (VStr remote) ->
  flag_value (config (self_ w)) "camera" "key" = Some (VStr key) ->
  storage_returns env filename "Qm123" ->
  exists w',
    send env filename keyword qrpic w = (inr (Some "Qm123"), w')
    /\ calls w' =
       calls w ++ [CallConnect; CallAdd filename]
         ++ (if str_truthy keyword then [CallUpdateShortUrl keyword "Qm123"] else [])
         ++ [CallPopen (datalog_program "Qm123" path remote key)].
Proof.
  intros Hi He _ Hd Hg Hpath Hremote Hkey Hstore.
  apply flag_value_Some in Hi, He, Hd, Hg.
  destruct (send_eq env filename keyword qrpic w _ _ _ _ Hi He Hg Hd) as [Heq Hcfg].
  simpl in Heq, Hcfg.
  destruct (send_publish_storage_returns env filename keyword w _ "Qm123" He eq_refl Hstore)
    as (w1 & Hpub & Hh1 & Hk1).
  rewrite Hpub in Heq, Hcfg. simpl in Heq, Hcfg.
  pose proof (send_publish_frame env filename keyword w) as (Hc1 & _).
  rewrite Hpub in Hc1. simpl in Hc1.
  rewrite <- Hc1 in Hg.
  rewrite (send_clean_skipped filename qrpic None w1 _ Hg eq_refl) in Heq, Hcfg.
  simpl in Heq, Hcfg.
  rewrite <- Hc1 in He, Hd, Hpath, Hremote, Hkey.
  rewrite (send_datalog_eq env w1 _ _ Hd He) in Heq. simpl in Heq.
  pose proof (send_datalog_try_frame env w1) as (Hs3 & _).
  pose proof (send_datalog_try_calls env w1 "Qm123" path remote key Hh1 Hpath Hremote Hkey)
    as Hk3.
  exists (snd (send_datalog_try env w1)).
  split; [rewrite Heq, Hs3, Hh1; reflexivity |].
  rewrite Hk3, Hk1. rewrite <- !app_assoc. reflexivity.
Qed.

Lemma send_scenario_datalog_witness :
  let w := fresh_world (sample_config false true false true false) sample_files in
  exists w',
    send sample_env "vid.mp4" "" "" w = (inr (Some "Qm123"), w')
    /\ calls w' =
       calls w ++ [CallConnect; CallAdd "vid.mp4"]
         ++ (if str_truthy "" then [CallUpdateShortUrl "" "Qm123"] else [])
         ++ [CallPopen (datalog_program "Qm123" "./robonomics" "-r wss://node" "seed")].
Proof.
  intros w.
  apply (send_scenario_datalog sample_env "vid.mp4" "" "" "./robonomics" "-r wss://node"
           "seed" w); try (vm_compute; reflexivity).
  split; [reflexivity |]. eexists. split; reflexivity.
Defined.

(** C10. The guarantee that [send] never raises covers only configurations
    in which the four flags read outside the [try] blocks are present: when
    [intro.enable], [external_io.enable], [general.delete_after_record] or
    [datalog.enable] is missing, [send] raises a [KeyError] to its caller. *)
Theorem send_raises_key_error
    (env : Env) (filename keyword qrpic : string) (w : world) :
  flag_missing (config (self_ w)) ->
  exists key w', send env filename keyword qrpic w = (inl (KeyError key), w').
Proof.
  intros Hm.
  destruct (send_cases env filename keyword qrpic w)
    as (w1 & w2 & _ & _ & [(_ & key & w' & Heq & _) | (Hp & _)]).
  - exists key, w'. exact Heq.
  - exfalso. eapply flags_present_not_missing; eassumption.
Qed.

Lemma send_raises_key_error_witness :
  let w := fresh_world (delete "general" (sample_config false true false true true))
             sample_files in
  flag_missing (config (self_ w))
  /\ exists key w', send sample_env "vid.mp4" "" "qr.png" w = (inl (KeyError key), w').
Proof.
  intros w.
  assert (Hm : flag_missing (config (self_ w))).
  { right; right; left. vm_compute. reflexivity. }
  split; [exact Hm |].
  exact (send_raises_key_error sample_env "vid.mp4" "" "qr.png" w Hm).
Defined.

(** * Further properties of the module *)

(** ** Strings *)

Lemma string_length_app (a b : string) :
  String.length (a +:+ b) = String.length a + String.length b.
Proof.
  induction a as [| c a IH]; [reflexivity |].
  change (S (String.length (a +:+ b)) = S (String.length a + String.length b)).
  by rewrite IH.
Qed.

Lemma substring_all (s : string) (m : nat) :
  String.length s <= m -> substring 0 m s = s.
Proof.
  revert m. induction s as [| c s IH]; intros m Hm.
  - destruct m; reflexivity.
  - destruct m as [| m]; simpl in *; [lia |]. rewrite IH by lia. reflexivity.
Qed.

Lemma substring_split (s : string) (n m : nat) :
  String.length s <= n + m ->
  substring 0 n s +:+ substring n m s = s.
Proof.
  revert n. induction s as [| c s IH]; intros n Hlen.
  - destruct n, m; reflexivity.
  - destruct n as [| n].
    + change (substring 0 m (String c s) = String c s). apply substring_all. exact Hlen.
    + change (String c (substring 0 n s +:+ substring n m s) = String c s).
      rewrite IH by (simpl in Hlen; lia). reflexivity.
Qed.

Lemma substring_prefix_length (s : string) (n : nat) :
  n <= String.length s -> String.length (substring 0 n s) = n.
Proof.
  revert n. induction s as [| c s IH]; intros n Hn.
  - destruct n; simpl in *; [reflexivity | lia].
  - destruct n as [| n]; simpl in *; [reflexivity |]. rewrite IH by lia. reflexivity.
Qed.

Lemma slice_minus4_rejoin (s : string) :
  slice_to_minus4 s +:+ slice_from_minus4 s = s.
Proof. apply substring_split. lia. Qed.

Lemma slice_minus4_lengths (s : string) :
  String.length (slice_to_minus4 s) + String.length (slice_from_minus4 s)
  = String.length s.
Proof. rewrite <- string_length_app, slice_minus4_rejoin. reflexivity. Qed.

Section Concatenate.

Variable env : Env.

(** X1. [concatenate] without the intro clip on disk: it raises, having only
    logged its start; no list file is written and no sub-process started. *)
Theorem concatenate_requires_intro (dirname filename : string) (w : world) :
  fs w !! (dirname +:+ "/media/intro.mp4") = None ->
  exists w',
    concatenate env dirname filename w
    = (inl (Exception_ "Intro file doesn't exist!"), w')
    /\ fs w' = fs w
    /\ calls w' = calls w
    /\ log w' = log w ++ [LogRecord INFO "Concatenating videos" None].
Proof.
  intros Hmiss. unfold concatenate, os_path_exists. unfold_monad. simpl.
  rewrite Hmiss. rewrite bool_decide_eq_false_2 by (intros [x Hx]; discriminate).
  simpl. eexists. split; [reflexivity |]. auto.
Qed.

Lemma concatenate_result dirname filename w r w' :
  concatenate env dirname filename w = (inr r, w') -> r = concat_name filename.
Proof.
  unfold concatenate, os_path_exists, write_text. unfold_monad. simpl.
  destruct (bool_decide (is_Some (fs w !! (dirname +:+ "/media/intro.mp4")))); simpl;
    [| discriminate].
  destruct (env_popen env _); simpl; intros H; inversion H. reflexivity.
Qed.


(** X3. The name [concatenate] returns is the given name with [_intro]
    inserted before its last four characters (before the whole name when it
    is shorter): six characters longer, hence never the input file itself. *)
Theorem concatenate_name_is_new (dirname filename r : string) (w w' : world) :
  concatenate env dirname filename w = (inr r, w') ->
  (exists stem ext,
      filename = stem +:+ ext
      /\ r = stem +:+ "_intro" +:+ ext
      /\ String.length ext = Nat.min 4 (String.length filename))
  /\ String.length r = String.length filename + 6
  /\ r <> filename.
Proof.
  intros Hrun. apply concatenate_result in Hrun. subst r.
  pose proof (slice_minus4_lengths filename) as Hlen.
  assert (Hstem : String.length (slice_to_minus4 filename) = String.length filename - 4).
  { apply substring_prefix_length. lia. }
  assert (Hr : String.length (concat_name filename) = String.length filename + 6).
  { unfold concat_name. rewrite !string_length_app. simpl. lia. }
  split; [| split; [exact Hr |]].
  - exists (slice_to_minus4 filename), (slice_from_minus4 filename).
    split; [symmetry; apply slice_minus4_rejoin |]. split; [reflexivity | lia].
  - intros Heq. rewrite Heq in Hr. lia.
Qed.

End Concatenate.

Section Workers.

Variable env : Env.

(** X4. [IpfsWorker.post] with a store that answers [h]: the hash is in the
    gateway afterwards whatever the short-link updater does; the updater is
    called exactly when the keyword is non-empty, with that keyword and [h],
    and its exception, if any, is what [post] raises. *)
Theorem IpfsWorker_post_stores_hash
    (self : IpfsWorker) (filename keyword h : string) (w : world) :
  storage_returns env filename h ->
  let r := fst (IpfsWorker_post env self filename keyword w) in
  let w' := snd (IpfsWorker_post env self filename keyword w) in
  ipfs_hash (self_ w') = Some h
  /\ calls w' = calls w ++ [CallConnect; CallAdd filename]
                ++ (if str_truthy keyword then [CallUpdateShortUrl keyword h] else [])
  /\ r = (if str_truthy keyword
          then match env_update_short_url env keyword h (ipfs_config self) with
               | Some e => inl e
               | None => inr tt
               end
          else inr tt)
  /\ fs w' = fs w
  /\ threads w' = threads w.
Proof.
  intros (Hc & res & Ha & Hh). unfold IpfsWorker_post. unfold_monad. simpl.
  rewrite Hc. simpl. rewrite Ha. simpl. rewrite Hh. simpl.
  destruct (str_truthy keyword); simpl.
  - destruct (env_update_short_url env keyword h (ipfs_config self)); simpl;
      repeat split; rewrite <- ?app_assoc; reflexivity.
  - repeat split; rewrite <- ?app_assoc; reflexivity.
Qed.

(** X5. [IpfsWorker.post] with a failing store: the error is raised as it
    is, the gateway keeps the hash it had, nothing is logged, and the
    short-link updater is not called even with a keyword. *)
Theorem IpfsWorker_post_failure_keeps_hash
    (self : IpfsWorker) (filename keyword : string) (e : exn) (w : world) :
  storage_fails env filename e ->
  let r := fst (IpfsWorker_post env self filename keyword w) in
  let w' := snd (IpfsWorker_post env self filename keyword w) in
  r = inl e
  /\ self_ w' = self_ w
  /\ log w' = log w
  /\ fs w' = fs w
  /\ (calls w' = calls w ++ [CallConnect]
      \/ calls w' = calls w ++ [CallConnect; CallAdd filename]).
Proof.
  intros Hfail. unfold IpfsWorker_post. unfold_monad. simpl.
  destruct Hfail as [Hc | [[Hc Ha] | (Hc & -> & res & Ha & Hh)]].
  - rewrite Hc. simpl. auto 6.
  - rewrite Hc. simpl. rewrite Ha. simpl.
    repeat split; right; rewrite <- app_assoc; reflexivity.
  - rewrite Hc. simpl. rewrite Ha. simpl. rewrite Hh. simpl.
    repeat split; right; rewrite <- app_assoc; reflexivity.
Qed.

Lemma RobonomicsWorker_post_cases
    (self : RobonomicsWorker) (h : string) (w : world) :
  ipfs_hash (self_ w) = Some h ->
  let r := fst (RobonomicsWorker_post env self w) in
  let w' := snd (RobonomicsWorker_post env self w) in
  match ledger_arguments self (config (self_ w)) with
  | Some (path, remote, key) =>
      calls w' = calls w ++ [CallPopen (datalog_program h path remote key)]
      /\ match env_popen env (datalog_program h path remote key) with
         | inl e => r = inl e /\ log w' = log w
         | inr out =>
             r = inr tt
             /\ log w' = log w ++ [LogRecord INFO
                  ("Published data to chain. Transaction hash is " +:+ out) None]
         end
      /\ self_ w' = self_ w /\ fs w' = fs w
  | None => w' = w /\ exists e, r = inl e /\ config_error e
  end.
Proof.
  intros Hh. unfold RobonomicsWorker_post, ledger_arguments, flag_value, flag_get.
  unfold_monad. simpl. rewrite Hh. simpl.
  destruct (robonomics_config self !! "path_to_robonomics_file") as [[| b | n | path] |];
    simpl; try (split; [reflexivity |]; eexists; split; [reflexivity |];
                first [left; eexists; reflexivity | right; eexists; reflexivity]).
  destruct (robonomics_config self !! "remote") as [[| b | n | remote] |];
    simpl; try (split; [reflexivity |]; eexists; split; [reflexivity |];
                first [left; eexists; reflexivity | right; eexists; reflexivity]).
  destruct (config (self_ w) !! "camera") as [cam |];
    simpl; try (split; [reflexivity |]; eexists; split; [reflexivity |];
                first [left; eexists; reflexivity | right; eexists; reflexivity]).
  destruct (cam !! "key") as [[| b | n | key] |];
    simpl; try (split; [reflexivity |]; eexists; split; [reflexivity |];
                first [left; eexists; reflexivity | right; eexists; reflexivity]).
  fold (datalog_program h path remote key).
  destruct (env_popen env (datalog_program h path remote key)); simpl; auto.
Qed.

(** X6. [RobonomicsWorker.post] with the hash set starts a sub-process
    exactly when the tool path, the remote and the camera key are all
    present as strings: then it is the one ledger command, whose failure is
    raised and whose output is logged.  Otherwise [post] raises a [KeyError]
    or [TypeError] and nothing at all has happened.  The gateway and the
    files are never touched. *)
Theorem RobonomicsWorker_post_subprocess
    (self : RobonomicsWorker) (h : string) (w : world) :
  ipfs_hash (self_ w) = Some h ->
  let r := fst (RobonomicsWorker_post env self w) in
  let w' := snd (RobonomicsWorker_post env self w) in
  match ledger_arguments self (config (self_ w)) with
  | Some (path, remote, key) =>
      calls w' = calls w ++ [CallPopen (datalog_program h path remote key)]
      /\ match env_popen env (datalog_program h path remote key) with
         | inl e => r = inl e /\ log w' = log w
         | inr out =>
             r = inr tt
             /\ log w' = log w ++ [LogRecord INFO
                  ("Published data to chain. Transaction hash is " +:+ out) None]
         end
      /\ self_ w' = self_ w /\ fs w' = fs w
  | None => w' = w /\ exists e, r = inl e /\ config_error e
  end.
Proof.
  intros Hh. unfold RobonomicsWorker_post, ledger_arguments, flag_value, flag_get.
  unfold_monad. simpl. rewrite Hh. simpl.
  destruct (robonomics_config self !! "path_to_robonomics_file") as [[| b | n | path] |];
    simpl; try (split; [reflexivity |]; eexists; split; [reflexivity |];
                first [left; eexists; reflexivity | right; eexists; reflexivity]).
  destruct (robonomics_config self !! "remote") as [[| b | n | remote] |];
    simpl; try (split; [reflexivity |]; eexists; split; [reflexivity |];
                first [left; eexists; reflexivity | right; eexists; reflexivity]).
  destruct (config (self_ w) !! "camera") as [cam |];
    simpl; try (split; [reflexivity |]; eexists; split; [reflexivity |];
                first [left; eexists; reflexivity | right; eexists; reflexivity]).
  destruct (cam !! "key") as [[| b | n | key] |];
    simpl; try (split; [reflexivity |]; eexists; split; [reflexivity |];
                first [left; eexists; reflexivity | right; eexists; reflexivity]).
  fold (datalog_program h path remote key).
  destruct (env_popen env (datalog_program h path remote key)); simpl; auto.
Qed.

(** X7. [_pin_to_pinata] calls the pinning client only with both
    credentials present and truthy, and then once, for the given file,
    logging completion when the call returns.  An empty credential makes it
    a silent no-op; a missing one raises [KeyError] with nothing done. *)
Theorem pin_to_pinata_credentials (self : PinataWorker) (filename : string) (w : world) :
  let r := fst (PinataWorker_pin_to_pinata env self filename w) in
  let w' := snd (PinataWorker_pin_to_pinata env self filename w) in
  match pinata_config self !! "pinata_api",
        pinata_config self !! "pinata_secret_api" with
  | Some api, Some secret =>
      if truthy api && truthy secret
      then calls w' = calls w ++ [CallPinFile api secret filename]
           /\ match env_pin env api secret filename with
              | Some e => r = inl e /\ log w' = log w
              | None =>
                  r = inr tt
                  /\ log w' = log w ++ [LogRecord INFO
                       ("File " +:+ filename +:+ " published to Pinata") None]
              end
      else r = inr tt /\ w' = w
  | _, _ => w' = w /\ exists key, r = inl (KeyError key)
  end.
Proof.
  unfold PinataWorker_pin_to_pinata. unfold_monad. simpl.
  destruct (pinata_config self !! "pinata_api") as [api |]; simpl; [| eauto].
  destruct (pinata_config self !! "pinata_secret_api") as [secret |]; simpl; [| eauto].
  destruct (truthy api && truthy secret); simpl; [| auto].
  destruct (env_pin env api secret filename); simpl; auto.
Qed.

(** X8. The thread [PinataWorker.post] starts: it is given the characters of
    the filename as its arguments, so when it runs it reaches
    [_pin_to_pinata] only for a filename of exactly one character; for any
    other filename it raises [TypeError] and does nothing. *)
Theorem pinning_thread_arity (self : PinataWorker) (filename : string) (w : world) :
  let w1 := snd (PinataWorker_post self filename w) in
  let t := {| thread_self := self; thread_args := chars filename |} in
  threads w1 = threads w ++ [t]
  /\ calls w1 = calls w
  /\ (String.length filename <> 1 ->
      Thread_run env t w1
      = (inl (TypeError "_pin_to_pinata() takes 2 positional arguments"), w1))
  /\ (String.length filename = 1 ->
      Thread_run env t w1 = PinataWorker_pin_to_pinata env self filename w1).
Proof.
  intros w1 t. split; [reflexivity |]. split; [reflexivity |]. split.
  - intros Hlen. apply Thread_run_arity. exact Hlen.
  - intros Hlen. unfold Thread_run. subst t. simpl.
    destruct filename as [| c [| c' s]]; simpl in Hlen; try discriminate.
    reflexivity.
Qed.

End Workers.

(** ** [clean_after_record] on its own *)

(** X9. [clean_after_record] with three distinct files on disk: the working
    file and the QR file are removed, the third file is removed exactly when
    [intro.enable] is truthy, every other file keeps its content, and the
    call returns normally. *)
Theorem clean_after_record_removes
    (filename qrpic ncf : string) (w : world) (vi : pyval) :
  is_Some (fs w !! filename) ->
  is_Some (fs w !! qrpic) ->
  is_Some (fs w !! ncf) ->
  filename <> qrpic -> ncf <> filename -> ncf <> qrpic ->
  flag_value (config (self_ w)) "intro" "enable" = Some vi ->
  let w' := snd (clean_after_record filename qrpic ncf w) in
  fst (clean_after_record filename qrpic ncf w) = inr tt
  /\ fs w' !! filename = None
  /\ fs w' !! qrpic = None
  /\ fs w' !! ncf = (if truthy vi then None else fs w !! ncf)
  /\ (forall p, p <> filename -> p <> qrpic -> p <> ncf -> fs w' !! p = fs w !! p).
Proof.
  intros [c1 Hf] [c2 Hq] [c3 Hn] Hfq Hnf Hnq Hvi.
  apply flag_value_inv in Hvi as (sec & Hsec & Hen).
  unfold clean_after_record, os_remove. unfold_monad. simpl.
  rewrite Hf. simpl.
  rewrite lookup_delete_ne by exact Hfq. rewrite Hq. simpl.
  rewrite Hsec. simpl. rewrite Hen. simpl.
  destruct (truthy vi); simpl.
  - rewrite !lookup_delete_ne by congruence. rewrite Hn. simpl.
    split; [reflexivity |].
    split; [rewrite !lookup_delete_ne by congruence; apply lookup_delete_eq |].
    split; [rewrite lookup_delete_ne by congruence; apply lookup_delete_eq |].
    split; [apply lookup_delete_eq |].
    intros p H1 H2 H3. rewrite !lookup_delete_ne by congruence. reflexivity.
  - split; [reflexivity |].
    split; [rewrite lookup_delete_ne by congruence; apply lookup_delete_eq |].
    split; [apply lookup_delete_eq |].
    split; [rewrite !lookup_delete_ne by congruence; reflexivity |].
    intros p H1 H2 H3. rewrite !lookup_delete_ne by congruence. reflexivity.
Qed.

(** X10. [clean_after_record] does not undo what it did: when the working
    file is there and the QR file is not, it raises [FileNotFoundError] for
    the QR file, the working file is already gone, and the third file is
    left in place. *)
Theorem clean_after_record_stops_at_missing_file
    (filename qrpic ncf : string) (w : world) :
  is_Some (fs w !! filename) ->
  fs w !! qrpic = None ->
  let w' := snd (clean_after_record filename qrpic ncf w) in
  fst (clean_after_record filename qrpic ncf w) = inl (FileNotFoundError qrpic)
  /\ fs w' = delete filename (fs w)
  /\ (ncf <> filename -> fs w' !! ncf = fs w !! ncf).
Proof.
  intros [c1 Hf] Hq.
  unfold clean_after_record, os_remove. unfold_monad. simpl.
  rewrite Hf. simpl.
  assert (Hq' : delete filename (fs w) !! qrpic = None).
  { destruct (decide (filename = qrpic)) as [-> | Hne];
      [apply lookup_delete_eq | rewrite lookup_delete_ne by exact Hne; exact Hq]. }
  rewrite Hq'. simpl.
  split; [reflexivity |]. split; [reflexivity |].
  intros Hne. rewrite lookup_delete_ne by congruence. reflexivity.
Qed.

(** ** Whole runs of [send] *)

Section Runs.

Variable env : Env.

(** A run of [send] with readable flags, in terms of the worlds its stages
    leave. *)
Lemma send_run filename keyword qrpic w vi ve vg vd :
  flag_get (config (self_ w)) "intro" "enable" = inr vi ->
  flag_get (config (self_ w)) "external_io" "enable" = inr ve ->
  flag_get (config (self_ w)) "general" "delete_after_record" = inr vg ->
  flag_get (config (self_ w)) "datalog" "enable" = inr vd ->
  let w1 := snd (send_publish env filename keyword w) in
  let w2 := snd (send_clean filename qrpic (if truthy vi then Some filename else None) w1) in
  let w3 := if truthy vd && truthy ve then snd (send_datalog_try env w2) else w2 in
  send env filename keyword qrpic w
  = (inr (if truthy vd && truthy ve then ipfs_hash (self_ w1) else None), w3)
  /\ publish_frame w w1 /\ clean_frame w1 w2 /\ datalog_frame w2 w3.
Proof.
  intros Hi He Hg Hd w1 w2 w3.
  destruct (send_eq env filename keyword qrpic w vi ve vg vd Hi He Hg Hd) as [Heq Hcfg].
  fold w1 in Heq, Hcfg. fold w2 in Heq, Hcfg.
  pose proof (send_publish_frame env filename keyword w) as Hf1. fold w1 in Hf1.
  pose proof (send_clean_frame filename qrpic
    (if truthy vi then Some filename else None) w1) as Hf2. fold w2 in Hf2.
  pose proof (send_datalog_try_frame env w2) as Hf3.
  rewrite <- Hcfg in He, Hd.
  rewrite Heq, (send_datalog_eq env w2 vd ve Hd He). subst w3.
  destruct Hf2 as (Hs2 & Hrest2).
  destruct (truthy vd && truthy ve).
  - destruct Hf3 as (Hs3 & Hrest3). rewrite Hs3, Hs2.
    split; [reflexivity |]. split; [exact Hf1 |].
    split; [split; assumption | split; assumption].
  - split; [reflexivity |]. split; [exact Hf1 |].
    split; [split; assumption | reflexivity].
Qed.

(** The cleanup stage when the original filename was never bound. *)
Lemma send_clean_unbound filename qrpic w vg :
  flag_get (config (self_ w)) "general" "delete_after_record" = inr vg ->
  truthy vg = true ->
  qrpic <> EmptyString ->
  send_clean filename qrpic None w
  = (inr tt,
     set_log (log w ++ [LogRecord ERROR "Error while deleting file, error: "
                          (Some (UnboundLocalError "non_concatenated_filename"))]) w).
Proof.
  intros Hg Hv Hq. unfold send_clean, bind at 1.
  rewrite self_config_get_eq, Hg, Hv, (str_truthy_true _ Hq). reflexivity.
Qed.

(** X11. [send] removes files only when [delete_after_record] and
    [intro.enable] are both truthy and a QR path is given.  In every other
    case the files are exactly as before; in particular, with intro off the
    cleanup stage fails on the unbound [non_concatenated_filename], logs
    that, and deletes nothing. *)
Theorem send_keeps_files
    (filename keyword qrpic : string) (w : world) (vi vg : pyval) :
  flags_present (config (self_ w)) ->
  flag_value (config (self_ w)) "intro" "enable" = Some vi ->
  flag_value (config (self_ w)) "general" "delete_after_record" = Some vg ->
  truthy vi && truthy vg && str_truthy qrpic = false ->
  let w' := snd (send env filename keyword qrpic w) in
  fs w' = fs w
  /\ (truthy vg = true -> qrpic <> EmptyString ->
      LogRecord ERROR "Error while deleting file, error: "
        (Some (UnboundLocalError "non_concatenated_filename")) ∈ log w').
Proof.
  intros Hp Hvi Hvg Hoff w'. subst w'.
  apply flags_present_inv in Hp as (vi' & ve & vg' & vd & Hi & He & Hg & Hd).
  apply flag_value_Some in Hvi, Hvg.
  rewrite Hvi in Hi. inversion Hi; subst vi'.
  rewrite Hvg in Hg. inversion Hg; subst vg'.
  destruct (send_run filename keyword qrpic w vi ve vg vd Hvi He Hvg Hd)
    as (Heq & (Hc1 & Hfs1 & _) & _ & (_ & Hfs3 & _ & (l3 & Hl3) & _)).
  rewrite Heq. simpl. rewrite Hfs3.
  set (w1 := snd (send_publish env filename keyword w)) in *.
  rewrite <- Hc1 in Hvg.
  destruct (truthy vg && str_truthy qrpic) eqn:Hon.
  - apply andb_prop in Hon as [Htg Hq].
    rewrite Htg, Hq, !andb_true_r in Hoff. rewrite Hoff in *.
    assert (Hq' : qrpic <> EmptyString) by (intros ->; discriminate).
    rewrite (send_clean_unbound filename qrpic w1 vg Hvg Htg Hq') in *.
    simpl in *. split; [exact Hfs1 |]. intros _ _.
    rewrite Hl3. simpl. apply elem_of_app; left. apply elem_of_app; right.
    apply list_elem_of_singleton. reflexivity.
  - rewrite (send_clean_skipped filename qrpic _ w1 vg Hvg Hon) in *.
    simpl in *. split; [exact Hfs1 |]. intros Htg Hq.
    rewrite Htg, (str_truthy_true _ Hq) in Hon. discriminate.
Qed.

(** The ledger stage with the hash set. *)
Lemma send_datalog_try_cases w h :
  ipfs_hash (self_ w) = Some h ->
  let w' := snd (send_datalog_try env w) in
  match ledger_ready (config (self_ w)) with
  | Some (path, remote, key) =>
      calls w' = calls w ++ [CallPopen (datalog_program h path remote key)]
  | None =>
      calls w' = calls w
      /\ exists e, config_error e
           /\ log w' = log w ++ [LogRecord ERROR
                "Error while sending IPFS hash to chain, error: " (Some e)]
  end.
Proof.
  intros Hh w'. subst w'. unfold ledger_ready, send_datalog_try, RobonomicsWorker_init.
  unfold_monad. simpl.
  destruct (config (self_ w) !! "transaction") as [sec |]; simpl.
  - pose proof (RobonomicsWorker_post_cases env
      {| robonomics_target := "Robonomics Network"; robonomics_config := sec |} h w Hh)
      as Hpost. simpl in Hpost.
    destruct (ledger_arguments _ _) as [[[path remote] key] |].
    + destruct (RobonomicsWorker_post env _ w) as [[e | []] w1]; simpl in *;
        destruct Hpost as (Hk & _); exact Hk.
    + destruct Hpost as (Hw & e & Hr & He).
      destruct (RobonomicsWorker_post env _ w) as [r w1]. simpl in *. subst r w1.
      simpl. split; [reflexivity |]. exists e. split; [exact He | reflexivity].
  - split; [reflexivity |]. exists (KeyError "transaction").
    split; [left; eexists; reflexivity | reflexivity].
Qed.

(** The publication stage with a store that answers [h]: the calls it makes,
    the thread it starts and what it logs when the short link fails. *)
Lemma send_publish_run filename keyword w ve h :
  flag_get (config (self_ w)) "external_io" "enable" = inr ve ->
  truthy ve = true ->
  storage_returns env filename h ->
  exists w1,
    send_publish env filename keyword w = (inr tt, w1)
    /\ ipfs_hash (self_ w1) = Some h
    /\ calls w1 = calls w ++ [CallConnect; CallAdd filename]
                   ++ (if str_truthy keyword then [CallUpdateShortUrl keyword h] else [])
    /\ threads w1 = threads w
                     ++ (if short_link_ok env (config (self_ w)) keyword h
                         then pinning_thread (config (self_ w)) filename else [])
    /\ (forall e, str_truthy keyword = true ->
          env_update_short_url env keyword h (config (self_ w)) = Some e ->
          LogRecord ERROR "Error while publishing to IPFS or pinning to pinata. Error: "
            (Some e) ∈ log w1).
Proof.
  intros He Hve (Hc & res & Ha & Hh). unfold send_publish, bind at 1.
  rewrite self_config_get_eq, He, Hve.
  unfold IpfsWorker_init, IpfsWorker_post, PinataWorker_init, PinataWorker_post.
  unfold short_link_ok, pinning_thread.
  unfold_monad. simpl. rewrite Hc. simpl. rewrite Ha. simpl. rewrite Hh. simpl.
  destruct (str_truthy keyword); simpl.
  - destruct (env_update_short_url env keyword h (config (self_ w))) as [e |]; simpl.
    + eexists. split; [reflexivity |]. simpl.
      split; [reflexivity |]. split; [rewrite <- ?app_assoc; reflexivity |].
      split; [rewrite app_nil_r; reflexivity |].
      intros e' _ He'. inversion He'; subst e'.
      apply elem_of_app; right. apply list_elem_of_singleton. reflexivity.
    + rewrite self_config_get_eq. unfold flag_get. simpl.
      destruct (config (self_ w) !! "pinata") as [sec |]; simpl;
        [destruct (sec !! "enable") as [vp |]; simpl; [destruct (truthy vp); simpl |] |];
        (eexists; split; [reflexivity |]; simpl;
         split; [reflexivity |]; split; [rewrite <- ?app_assoc; reflexivity |];
         split; [rewrite ?app_nil_r; reflexivity | intros e' _ He'; discriminate]).
  - rewrite self_config_get_eq. unfold flag_get. simpl.
    destruct (config (self_ w) !! "pinata") as [sec |]; simpl;
      [destruct (sec !! "enable") as [vp |]; simpl; [destruct (truthy vp); simpl |] |];
      (eexists; split; [reflexivity |]; simpl;
       split; [reflexivity |]; split; [rewrite <- ?app_assoc; reflexivity |];
       split; [rewrite ?app_nil_r; reflexivity | intros e' Hk; discriminate]).
Qed.

(** X12. [send] when the store fails: the gateway is left as it was and no
    thread is started; with datalog on, what is returned is the hash the
    gateway already held (nothing for a fresh one), and a gateway that still
    holds the hash [h0] of an earlier run sends [h0] to the ledger again. *)
Theorem send_storage_failure_keeps_old_hash
    (filename keyword qrpic : string) (w : world) (ve vd : pyval) (e : exn) :
  flags_present (config (self_ w)) ->
  flag_value (config (self_ w)) "external_io" "enable" = Some ve ->
  truthy ve = true ->
  flag_value (config (self_ w)) "datalog" "enable" = Some vd ->
  storage_fails env filename e ->
  let w' := snd (send env filename keyword qrpic w) in
  self_ w' = self_ w
  /\ threads w' = threads w
  /\ fst (send env filename keyword qrpic w)
     = inr (if truthy vd then ipfs_hash (self_ w) else None)
  /\ (forall h0 path remote key,
        truthy vd = true ->
        ipfs_hash (self_ w) = Some h0 ->
        ledger_ready (config (self_ w)) = Some (path, remote, key) ->
        CallPopen (datalog_program h0 path remote key) ∈ calls w').
Proof.
  intros Hp Hve Ht Hvd Hfail w'. subst w'.
  apply flags_present_inv in Hp as (vi & ve' & vg & vd' & Hi & He & Hg & Hd).
  apply flag_value_Some in Hve, Hvd.
  rewrite Hve in He. inversion He; subst ve'.
  rewrite Hvd in Hd. inversion Hd; subst vd'.
  destruct (send_run filename keyword qrpic w vi ve vg vd Hi Hve Hg Hvd)
    as (Heq & _ & (Hs2 & _ & Ht2 & _) & Hf3).
  destruct (send_publish_storage_fails env filename keyword w ve e Hve Ht Hfail)
    as [lc Hpub].
  rewrite Hpub in Heq, Hs2, Ht2, Hf3. simpl in Heq, Hs2, Ht2, Hf3.
  rewrite Ht, andb_true_r in Heq, Hf3. rewrite Heq. simpl.
  set (w2 := snd (send_clean filename qrpic _ _)) in *.
  destruct (truthy vd) eqn:Htd.
  - destruct Hf3 as (Hs3 & _ & Ht3 & _).
    split; [rewrite Hs3; exact Hs2 |]. split; [rewrite Ht3; exact Ht2 |].
    split; [reflexivity |].
    intros h0 path remote key _ Hh0 Hready.
    assert (Hh2 : ipfs_hash (self_ w2) = Some h0) by (rewrite Hs2; exact Hh0).
    pose proof (send_datalog_try_cases w2 h0 Hh2) as Hcases. simpl in Hcases.
    rewrite Hs2 in Hcases. simpl in Hcases. rewrite Hready in Hcases.
    rewrite Hcases. apply elem_of_app; right. apply list_elem_of_singleton. reflexivity.
  - split; [exact Hs2 |]. split; [exact Ht2 |]. split; [reflexivity |].
    intros h0 path remote key Habs. discriminate.
Qed.

(** X13. What [send] returns, in every run with readable flags: the hash
    the gateway holds at the end when [datalog.enable] and
    [external_io.enable] are both truthy, and [None] in every other case,
    stored hash or not.  A hash the gateway holds is never cleared, and
    after a successful storage step the gateway holds the new hash. *)
Theorem send_return_value
    (filename keyword qrpic : string) (w : world) (ve vd : pyval) :
  flags_present (config (self_ w)) ->
  flag_value (config (self_ w)) "external_io" "enable" = Some ve ->
  flag_value (config (self_ w)) "datalog" "enable" = Some vd ->
  let w' := snd (send env filename keyword qrpic w) in
  fst (send env filename keyword qrpic w)
  = inr (if truthy vd && truthy ve then ipfs_hash (self_ w') else None)
  /\ (is_Some (ipfs_hash (self_ w)) -> is_Some (ipfs_hash (self_ w')))
  /\ (forall h, truthy ve = true -> storage_returns env filename h ->
        ipfs_hash (self_ w') = Some h).
Proof.
  intros Hp Hve Hvd w'. subst w'.
  apply flags_present_inv in Hp as (vi & ve' & vg & vd' & Hi & He & Hg & Hd).
  apply flag_value_Some in Hve, Hvd.
  rewrite Hve in He. inversion He; subst ve'.
  rewrite Hvd in Hd. inversion Hd; subst vd'.
  destruct (send_run filename keyword qrpic w vi ve vg vd Hi Hve Hg Hvd)
    as (Heq & (_ & _ & _ & _ & Hh1) & (Hs2 & _) & (Hs3 & _)).
  rewrite Heq. simpl.
  set (w1 := snd (send_publish env filename keyword w)) in *.
  rewrite Hs3, Hs2.
  split; [reflexivity |]. split.
  - intros Hsome. destruct Hh1 as [Hsame | Hset]; [rewrite Hsame; exact Hsome | exact Hset].
  - intros h Ht Hstore.
    destruct (send_publish_run filename keyword w ve h Hve Ht Hstore)
      as (w1' & Hpub & Hh & _).
    subst w1. rewrite Hpub. exact Hh.
Qed.

(** X14. [send] with external_io and datalog on and a store that answers
    [h] returns [h]; the calls it makes are connect, add, the short-link
    update when there is a keyword, and then the ledger command for [h]
    exactly when the tool path, the remote and the camera key are all there
    as strings.  When one of them is not, no sub-process is started and the
    configuration error is logged; [h] is returned all the same. *)
Theorem send_anchors_when_ledger_configured
    (filename keyword qrpic h : string) (w : world) (ve vd : pyval) :
  flags_present (config (self_ w)) ->
  flag_value (config (self_ w)) "external_io" "enable" = Some ve ->
  truthy ve = true ->
  flag_value (config (self_ w)) "datalog" "enable" = Some vd ->
  truthy vd = true ->
  storage_returns env filename h ->
  let w' := snd (send env filename keyword qrpic w) in
  fst (send env filename keyword qrpic w) = inr (Some h)
  /\ calls w' =
     calls w ++ [CallConnect; CallAdd filename]
       ++ (if str_truthy keyword then [CallUpdateShortUrl keyword h] else [])
       ++ match ledger_ready (config (self_ w)) with
          | Some (path, remote, key) => [CallPopen (datalog_program h path remote key)]
          | None => []
          end
  /\ (ledger_ready (config (self_ w)) = None ->
      exists e, config_error e
        /\ LogRecord ERROR "Error while sending IPFS hash to chain, error: " (Some e)
             ∈ log w').
Proof.
  intros Hp Hve Hte Hvd Htd Hstore w'. subst w'.
  apply flags_present_inv in Hp as (vi & ve' & vg & vd' & Hi & He & Hg & Hd).
  apply flag_value_Some in Hve, Hvd.
  rewrite Hve in He. inversion He; subst ve'.
  rewrite Hvd in Hd. inversion Hd; subst vd'.
  destruct (send_run filename keyword qrpic w vi ve vg vd Hi Hve Hg Hvd)
    as (Heq & (Hc1 & _) & (Hs2 & Hk2 & _) & _).
  destruct (send_publish_run filename keyword w ve h Hve Hte Hstore)
    as (w1 & Hpub & Hh1 & Hk1 & _).
  rewrite Hpub in Heq, Hc1, Hs2, Hk2. simpl in Heq, Hc1, Hs2, Hk2.
  rewrite Hte, Htd in Heq. simpl in Heq. rewrite Heq. simpl.
  set (w2 := snd (send_clean filename qrpic _ w1)) in *.
  assert (Hh2 : ipfs_hash (self_ w2) = Some h) by (rewrite Hs2; exact Hh1).
  pose proof (send_datalog_try_cases w2 h Hh2) as Hcases. simpl in Hcases.
  rewrite Hs2, Hc1 in Hcases.
  split; [rewrite Hh1; reflexivity |].
  destruct (ledger_ready (config (self_ w))) as [[[path remote] key] |].
  - split; [| discriminate].
    rewrite Hcases, Hk2, Hk1. rewrite <- !app_assoc. reflexivity.
  - destruct Hcases as (Hk3 & e & Herr & Hl3).
    split; [rewrite Hk3, Hk2, Hk1, app_nil_r; reflexivity |].
    intros _. exists e. split; [exact Herr |].
    rewrite Hl3. apply elem_of_app; right. apply list_elem_of_singleton. reflexivity.
Qed.

(** X15. When [send] starts the pinning thread, with a store that answers:
    exactly when the short-link step does not raise and [pinata.enable] can
    be read and is truthy; then it is one thread, for the published file and
    the [pinata] section.  A failing short-link update, or a missing
    [pinata] section, means no pinning; the first is logged as a publication
    error while the hash stays stored. *)
Theorem send_dispatches_pinning
    (filename keyword qrpic h : string) (w : world) (ve : pyval) :
  flags_present (config (self_ w)) ->
  flag_value (config (self_ w)) "external_io" "enable" = Some ve ->
  truthy ve = true ->
  storage_returns env filename h ->
  let w' := snd (send env filename keyword qrpic w) in
  threads w' = threads w
               ++ (if short_link_ok env (config (self_ w)) keyword h
                   then pinning_thread (config (self_ w)) filename else [])
  /\ ipfs_hash (self_ w') = Some h
  /\ (forall e, keyword <> EmptyString ->
        env_update_short_url env keyword h (config (self_ w)) = Some e ->
        LogRecord ERROR "Error while publishing to IPFS or pinning to pinata. Error: "
          (Some e) ∈ log w').
Proof.
  intros Hp Hve Hte Hstore w'. subst w'.
  apply flags_present_inv in Hp as (vi & ve' & vg & vd & Hi & He & Hg & Hd).
  apply flag_value_Some in Hve.
  rewrite Hve in He. inversion He; subst ve'.
  destruct (send_run filename keyword qrpic w vi ve vg vd Hi Hve Hg Hd)
    as (Heq & _ & (Hs2 & _ & Ht2 & (l2 & Hl2 & _)) & (Hs3 & _ & Ht3 & (l3 & Hl3) & _)).
  destruct (send_publish_run filename keyword w ve h Hve Hte Hstore)
    as (w1 & Hpub & Hh1 & _ & Ht1 & Hlog1).
  rewrite Hpub in Heq, Hs2, Ht2, Hl2, Hs3, Ht3, Hl3.
  simpl in Heq, Hs2, Ht2, Hl2, Hs3, Ht3, Hl3.
  rewrite Heq. simpl.
  split; [rewrite Ht3, Ht2; exact Ht1 |].
  split; [rewrite Hs3, Hs2; exact Hh1 |].
  intros e Hk Hupd. rewrite Hl3, Hl2.
  apply elem_of_app; left. apply elem_of_app; left.
  apply Hlog1; [apply str_truthy_true; exact Hk | exact Hupd].
Qed.

(** X16. A configuration without [general.delete_after_record] makes [send]
    raise [KeyError] only after the publication stage has run: with
    external_io on and a store that answers [h], the file has been added,
    the short link updated and the hash stored when the error reaches the
    caller. *)
Theorem send_raises_after_publishing
    (filename keyword qrpic h : string) (w : world) (vi ve : pyval) :
  flag_value (config (self_ w)) "intro" "enable" = Some vi ->
  flag_value (config (self_ w)) "external_io" "enable" = Some ve ->
  truthy ve = true ->
  flag_value (config (self_ w)) "general" "delete_after_record" = None ->
  storage_returns env filename h ->
  let w' := snd (send env filename keyword qrpic w) in
  (exists key, fst (send env filename keyword qrpic w) = inl (KeyError key))
  /\ ipfs_hash (self_ w') = Some h
  /\ calls w' = calls w ++ [CallConnect; CallAdd filename]
                ++ (if str_truthy keyword then [CallUpdateShortUrl keyword h] else []).
Proof.
  intros Hvi Hve Hte Hmiss Hstore w'. subst w'.
  apply flag_value_Some in Hvi, Hve.
  destruct (send_publish_run filename keyword w ve h Hve Hte Hstore)
    as (w1 & Hpub & Hh1 & Hk1 & _).
  pose proof (send_publish_frame env filename keyword w) as (Hc1 & _).
  rewrite Hpub in Hc1. simpl in Hc1.
  destruct (flag_get (config (self_ w)) "general" "delete_after_record") as [e | vg] eqn:Hg;
    [| apply flag_get_inr in Hg; rewrite Hg in Hmiss; discriminate].
  apply flag_get_inl in Hg as Hkey. destruct Hkey as [_ [key ->]].
  rewrite <- Hc1 in Hg.
  assert (Hsend : send env filename keyword qrpic w = (inl (KeyError key), w1)).
  { unfold send, bind at 1. rewrite send_intro_eq, Hvi. simpl.
    unfold bind at 1. rewrite Hpub. unfold bind.
    rewrite (send_clean_raises filename qrpic _ w1 (KeyError key) Hg). reflexivity. }
  rewrite Hsend. simpl.
  split; [exists key; reflexivity |]. split; [exact Hh1 | exact Hk1].
Qed.

End Runs.

(** ** The properties at sample inputs *)

Lemma concatenate_requires_intro_witness :
  let w := fresh_world (sample_config true true false false false) three_files in
  fs w !! ("/srv" +:+ "/media/intro.mp4") = None
  /\ exists w',
       concatenate sample_env "/srv" "vid.mp4" w
       = (inl (Exception_ "Intro file doesn't exist!"), w')
       /\ fs w' = fs w
       /\ calls w' = calls w
       /\ log w' = log w ++ [LogRecord INFO "Concatenating videos" None].
Proof.
  intros w.
  assert (H : fs w !! ("/srv" +:+ "/media/intro.mp4") = None) by (vm_compute; reflexivity).
  split; [exact H |].
  exact (concatenate_requires_intro sample_env "/srv" "vid.mp4" w H).
Defined.


Lemma concatenate_name_is_new_witness :
  let w := fresh_world (sample_config true true false false false) sample_files in
  String.length "vid_intro.mp4" = String.length "vid.mp4" + 6
  /\ "vid_intro.mp4" <> "vid.mp4".
Proof.
  intros w.
  destruct (concatenate_name_is_new sample_env "/srv" "vid.mp4" "vid_intro.mp4" w
              (snd (concatenate sample_env "/srv" "vid.mp4" w))) as (_ & Hlen & Hne).
  - vm_compute. reflexivity.
  - split; [exact Hlen | exact Hne].
Defined.

Lemma IpfsWorker_post_stores_hash_witness :
  let w := fresh_world (sample_config false true false false false) sample_files in
  let w' := snd (IpfsWorker_post short_link_failing_env sample_ipfs_worker "vid.mp4" "6b" w) in
  storage_returns short_link_failing_env "vid.mp4" "Qm123"
  /\ ipfs_hash (self_ w') = Some "Qm123"
  /\ calls w' = calls w ++ [CallConnect; CallAdd "vid.mp4"]
                ++ (if str_truthy "6b" then [CallUpdateShortUrl "6b" "Qm123"] else []).
Proof.
  intros w w'.
  assert (H : storage_returns short_link_failing_env "vid.mp4" "Qm123").
  { split; [reflexivity |]. eexists. split; reflexivity. }
  split; [exact H |].
  destruct (IpfsWorker_post_stores_hash short_link_failing_env sample_ipfs_worker
              "vid.mp4" "6b" "Qm123" w H) as (Hh & Hk & _).
  split; [exact Hh | exact Hk].
Defined.

Lemma IpfsWorker_post_failure_keeps_hash_witness :
  let w := published_world (sample_config false true false false false) sample_files in
  let w' := snd (IpfsWorker_post failing_env sample_ipfs_worker "vid.mp4" "6b" w) in
  storage_fails failing_env "vid.mp4" (CollaboratorError "StorageError" "unreachable")
  /\ fst (IpfsWorker_post failing_env sample_ipfs_worker "vid.mp4" "6b" w)
     = inl (CollaboratorError "StorageError" "unreachable")
  /\ self_ w' = self_ w.
Proof.
  intros w w'.
  assert (H : storage_fails failing_env "vid.mp4"
                (CollaboratorError "StorageError" "unreachable")).
  { right; left. split; reflexivity. }
  split; [exact H |].
  destruct (IpfsWorker_post_failure_keeps_hash failing_env sample_ipfs_worker
              "vid.mp4" "6b" _ w H) as (Hr & Hs & _).
  split; [exact Hr | exact Hs].
Defined.

Lemma RobonomicsWorker_post_subprocess_witness :
  let w := published_world (sample_config false true false true false) sample_files in
  let w' := snd (RobonomicsWorker_post sample_env sample_robonomics_worker w) in
  ipfs_hash (self_ w) = Some "QmOld"
  /\ calls w' = calls w
       ++ [CallPopen (datalog_program "QmOld" "./robonomics" "-r wss://node" "seed")].
Proof.
  intros w w'.
  assert (H : ipfs_hash (self_ w) = Some "QmOld") by reflexivity.
  split; [exact H |].
  pose proof (RobonomicsWorker_post_subprocess sample_env sample_robonomics_worker
                "QmOld" w H) as Hpost.
  assert (Hargs : ledger_arguments sample_robonomics_worker (config (self_ w))
                  = Some ("./robonomics", "-r wss://node", "seed"))
    by (vm_compute; reflexivity).
  cbv zeta in Hpost. rewrite Hargs in Hpost. destruct Hpost as (Hk & _). exact Hk.
Defined.

Lemma pinning_thread_arity_witness :
  let w := fresh_world (sample_config false true true false false) sample_files in
  let w1 := snd (PinataWorker_post sample_pinata_worker "v" w) in
  let t := {| thread_self := sample_pinata_worker; thread_args := chars "v" |} in
  String.length "v" = 1
  /\ Thread_run sample_env t w1
     = PinataWorker_pin_to_pinata sample_env sample_pinata_worker "v" w1.
Proof.
  intros w w1 t. split; [reflexivity |].
  destruct (pinning_thread_arity sample_env sample_pinata_worker "v" w) as (_ & _ & _ & H).
  apply H. reflexivity.
Defined.

Lemma clean_after_record_removes_witness :
  let w := fresh_world (sample_config true true false false true) three_files in
  let w' := snd (clean_after_record "vid_intro.mp4" "qr.png" "vid.mp4" w) in
  fst (clean_after_record "vid_intro.mp4" "qr.png" "vid.mp4" w) = inr tt
  /\ fs w' !! "vid_intro.mp4" = None
  /\ fs w' !! "qr.png" = None
  /\ fs w' !! "vid.mp4" = None.
Proof.
  intros w w'.
  destruct (clean_after_record_removes "vid_intro.mp4" "qr.png" "vid.mp4" w (VBool true))
    as (Hr & Hf & Hq & Hn & _).
  - eexists. vm_compute. reflexivity.
  - eexists. vm_compute. reflexivity.
  - eexists. vm_compute. reflexivity.
  - discriminate.
  - discriminate.
  - discriminate.
  - vm_compute. reflexivity.
  - repeat split; assumption.
Defined.

Lemma clean_after_record_stops_at_missing_file_witness :
  let w := fresh_world (sample_config true true false false true) {[ "vid.mp4" := "video" ]} in
  let w' := snd (clean_after_record "vid.mp4" "qr.png" "vid.mp4" w) in
  fst (clean_after_record "vid.mp4" "qr.png" "vid.mp4" w)
  = inl (FileNotFoundError "qr.png")
  /\ fs w' = delete "vid.mp4" (fs w).
Proof.
  intros w w'.
  destruct (clean_after_record_stops_at_missing_file "vid.mp4" "qr.png" "vid.mp4" w)
    as (Hr & Hfs & _).
  - eexists. vm_compute. reflexivity.
  - vm_compute. reflexivity.
  - split; assumption.
Defined.

Lemma send_keeps_files_witness :
  let w := fresh_world (sample_config false true false true true) sample_files in
  let w' := snd (send sample_env "vid.mp4" "" "qr.png" w) in
  fs w' = fs w
  /\ LogRecord ERROR "Error while deleting file, error: "
       (Some (UnboundLocalError "non_concatenated_filename")) ∈ log w'.
Proof.
  intros w w'.
  destruct (send_keeps_files sample_env "vid.mp4" "" "qr.png" w (VBool false) (VBool true))
    as (Hfs & Hlog).
  - unfold flags_present. vm_compute. repeat split; eexists; reflexivity.
  - vm_compute. reflexivity.
  - vm_compute. reflexivity.
  - reflexivity.
  - split; [exact Hfs |]. apply Hlog; [reflexivity | discriminate].
Defined.

Lemma send_storage_failure_keeps_old_hash_witness :
  let w := published_world (sample_config false true true true false) sample_files in
  let w' := snd (send failing_env "vid.mp4" "" "" w) in
  fst (send failing_env "vid.mp4" "" "" w) = inr (Some "QmOld")
  /\ CallPopen (datalog_program "QmOld" "./robonomics" "-r wss://node" "seed") ∈ calls w'.
Proof.
  intros w w'.
  destruct (send_storage_failure_keeps_old_hash failing_env "vid.mp4" "" "" w
              (VBool true) (VBool true) (CollaboratorError "StorageError" "unreachable"))
    as (_ & _ & Hr & Hcall).
  - unfold flags_present. vm_compute. repeat split; eexists; reflexivity.
  - vm_compute. reflexivity.
  - reflexivity.
  - vm_compute. reflexivity.
  - right; left. split; reflexivity.
  - split; [exact Hr |]. apply Hcall; [reflexivity | reflexivity | vm_compute; reflexivity].
Defined.

Lemma send_return_value_witness :
  let w := fresh_world (sample_config false true false false false) sample_files in
  let w' := snd (send sample_env "vid.mp4" "" "" w) in
  fst (send sample_env "vid.mp4" "" "" w)
  = inr (if truthy (VBool false) && truthy (VBool true) then ipfs_hash (self_ w') else None)
  /\ ipfs_hash (self_ w') = Some "Qm123".
Proof.
  intros w w'.
  destruct (send_return_value sample_env "vid.mp4" "" "" w (VBool true) (VBool false))
    as (Hr & _ & Hh).
  - unfold flags_present. vm_compute. repeat split; eexists; reflexivity.
  - vm_compute. reflexivity.
  - vm_compute. reflexivity.
  - split; [exact Hr |]. apply Hh; [reflexivity |].
    split; [reflexivity |]. eexists. split; reflexivity.
Defined.

Lemma send_anchors_when_ledger_configured_witness :
  let cfg := delete "camera" (sample_config true true false true false) in
  let w := fresh_world cfg sample_files in
  let w' := snd (send sample_env "vid.mp4" "6b" "" w) in
  ledger_ready cfg = None
  /\ fst (send sample_env "vid.mp4" "6b" "" w) = inr (Some "Qm123")
  /\ calls w' = [CallConnect; CallAdd "vid.mp4"; CallUpdateShortUrl "6b" "Qm123"].
Proof.
  intros cfg w w'.
  assert (Hready : ledger_ready (config (self_ w)) = None) by (vm_compute; reflexivity).
  split; [exact Hready |].
  destruct (send_anchors_when_ledger_configured sample_env "vid.mp4" "6b" "" "Qm123" w
              (VBool true) (VBool true)) as (Hr & Hk & _).
  - unfold flags_present. vm_compute. repeat split; eexists; reflexivity.
  - vm_compute. reflexivity.
  - reflexivity.
  - vm_compute. reflexivity.
  - reflexivity.
  - split; [reflexivity |]. eexists. split; reflexivity.
  - split; [exact Hr |]. subst w'. cbv zeta in Hk. rewrite Hk, Hready. reflexivity.
Defined.

Lemma send_dispatches_pinning_witness :
  let w := fresh_world (sample_config false true true false false) sample_files in
  let w' := snd (send short_link_failing_env "vid.mp4" "6b" "" w) in
  threads w' = threads w
  /\ ipfs_hash (self_ w') = Some "Qm123"
  /\ LogRecord ERROR "Error while publishing to IPFS or pinning to pinata. Error: "
       (Some (CollaboratorError "ConnectionError" "yourls")) ∈ log w'.
Proof.
  intros w w'.
  destruct (send_dispatches_pinning short_link_failing_env "vid.mp4" "6b" "" "Qm123" w
              (VBool true)) as (Ht & Hh & Hlog).
  - unfold flags_present. vm_compute. repeat split; eexists; reflexivity.
  - vm_compute. reflexivity.
  - reflexivity.
  - split; [reflexivity |]. eexists. split; reflexivity.
  - split; [subst w'; cbv zeta in Ht; rewrite Ht; vm_compute; reflexivity |].
    split; [exact Hh |].
    apply Hlog; [discriminate | reflexivity].
Defined.

Lemma send_raises_after_publishing_witness :
  let w := fresh_world (delete "general" (sample_config false true false true true))
             sample_files in
  let w' := snd (send sample_env "vid.mp4" "" "qr.png" w) in
  (exists key, fst (send sample_env "vid.mp4" "" "qr.png" w) = inl (KeyError key))
  /\ ipfs_hash (self_ w') = Some "Qm123".
Proof.
  intros w w'.
  destruct (send_raises_after_publishing sample_env "vid.mp4" "" "qr.png" "Qm123" w
              (VBool false) (VBool true)) as (Hr & Hh & _).
  - vm_compute. reflexivity.
  - vm_compute. reflexivity.
  - reflexivity.
  - vm_compute. reflexivity.
  - split; [reflexivity |]. eexists. split; reflexivity.
  - split; [exact Hr | exact Hh].
Defined.
